(** * cloud-lrs: users, courses and tenants API

    A shallow embedding of [lib/lrs-users/api.js], of the course API
    ([getOrCreateCourse], [getCourse]) and of the tenant API ([getTenant]),
    with the properties of the specification stated over it.

    Conventions of the embedding.
    - JavaScript numbers that the code handles (ids, years, months, counts)
      are integers, modelled as [Z].
    - A Node-style call [callback(err, value)] is the value
      [Callback err value]; an exception that escapes is [Throws e].
    - The relational store is a record of tables. Every store call is
      recorded in a trace and may be made to fail by the environment
      (connectivity, constraint violation, ...): the world carries the list
      of the outcomes of the store calls to come. *)

From Stdlib Require Import ZArith List String Ascii Bool Lia Arith.
From Stdlib Require Import DecimalString.
Import ListNotations.

Local Open Scope string_scope.
Local Open Scope list_scope.
Local Open Scope Z_scope.

(** ** JavaScript values, errors and callback outcomes *)

(** The scalar values a caller may pass where the code validates its input. *)
Inductive jsval : Type :=
| JUndefined
| JNull
| JBool (b : bool)
| JNum (n : Z)
| JStr (s : string)
| JObject.

(** The error objects of the API: [{code: ..., msg: ...}]. *)
Record error : Type := mkError { code : Z; msg : string }.

Inductive exception : Type :=
| TypeError (what : string)
| ReferenceError (what : string).

(** What a caller observes of one API call. [NoCallback]: the call returns
    and the callback is never invoked. *)
Inductive outcome (A : Type) : Type :=
| Callback (err : option error) (value : option A)
| Throws (e : exception)
| NoCallback.

Arguments Callback {A} err value.
Arguments Throws {A} e.
Arguments NoCallback {A}.

Definition error_code {A} (o : outcome A) : option Z :=
  match o with
  | Callback (Some e) _ => Some (code e)
  | _ => None
  end.

(** ** The monthly series of [getTotalActivities] *)

Module MonthlySeries.

(** A row of the GROUP BY year, month query; the driver answers numbers
    for the three columns. *)
Record Row : Type := mkRow { year : Z; month : Z; total : Z }.

(** An element of [totalActivities]. *)
Record Activity : Type := mkActivity {
  period : string;
  period_total : Z;
  current : bool
}.

Definition month_name (m : Z) : option string :=
  match m with
  | 1 => Some "January" | 2 => Some "February" | 3 => Some "March"
  | 4 => Some "April" | 5 => Some "May" | 6 => Some "June"
  | 7 => Some "July" | 8 => Some "August" | 9 => Some "September"
  | 10 => Some "October" | 11 => Some "November" | 12 => Some "December"
  | _ => None
  end.

(** [moment(y + '-' + m + '-1', 'YYYY-M-D').format('MMMM YYYY')], for the
    four-digit years of a timestamp column; a month outside 1..12 does not
    parse and moment prints an invalid date. *)
Definition format_period (y m : Z) : string :=
  match month_name m with
  | Some name => (name ++ " " ++ NilZero.string_of_int (Z.to_int y))%string
  | None => "Invalid date"
  end.

(** [_.find(results, {year: currentYear, month: currentMonth})] *)
Definition find_month (results : list Row) (currentYear currentMonth : Z)
  : option Row :=
  find (fun r => (year r =? currentYear) && (month r =? currentMonth)) results.

(** The object pushed for the month [(currentYear, currentMonth)]; [now] is
    [moment().format('MMMM YYYY')]. *)
Definition result_of (results : list Row) (now : string)
    (currentYear currentMonth : Z) : Activity :=
  let month := find_month results currentYear currentMonth in
  {| period := format_period currentYear currentMonth;
     period_total := match month with Some r => total r | None => 0 end;
     current := String.eqb now (format_period currentYear currentMonth) |}.

(** The [while] loop. One unit of [fuel] pays for one iteration; [None]
    means that the loop is still running when the fuel is spent. *)
Fixpoint fill_months (fuel : nat) (results : list Row) (now : string)
    (lastActivityYear lastActivityMonth currentYear currentMonth : Z)
    (totalActivities : list Activity) : option (list Activity) :=
  if negb (currentYear =? lastActivityYear)
     || negb (currentMonth =? lastActivityMonth)
  then
    match fuel with
    | O => None
    | S fuel' =>
        let totalActivities :=
          totalActivities ++ [result_of results now currentYear currentMonth] in
        if currentMonth =? 12
        then fill_months fuel' results now lastActivityYear lastActivityMonth
               (currentYear + 1) 1 totalActivities
        else fill_months fuel' results now lastActivityYear lastActivityMonth
               currentYear (currentMonth + 1) totalActivities
    end
  else Some totalActivities.

(** The body of the query's completion callback for a non-empty result:
    [parseInt] of an integer month is the month itself. *)
Definition series (fuel : nat) (now : string) (results : list Row)
  : option (list Activity) :=
  match results with
  | [] => Some []
  | first :: _ =>
      let currentYear := year first in
      let currentMonth := month first in
      let lastActivityMonth := month (last results first) + 1 in
      let lastActivityYear := year (last results first) in
      fill_months fuel results now lastActivityYear lastActivityMonth
        currentYear currentMonth []
  end.

(** *** The calendar, as the specification speaks of it *)

Definition calendar_month (ym : Z * Z) : Prop := 1 <= snd ym <= 12.

(** Months counted from year 0: a bijection between calendar months and Z. *)
Definition month_index (ym : Z * Z) : Z := 12 * fst ym + (snd ym - 1).

Definition next_month (ym : Z * Z) : Z * Z :=
  if snd ym =? 12 then (fst ym + 1, 1) else (fst ym, snd ym + 1).

(** The [n] consecutive calendar months that start at [ym]. *)
Fixpoint months_from (ym : Z * Z) (n : nat) : list (Z * Z) :=
  match n with
  | O => []
  | S k => ym :: months_from (next_month ym) k
  end.

(** The number of calendar months from [first] to [last], both included. *)
Definition months_between (first last : Z * Z) : nat :=
  Z.to_nat (month_index last - month_index first + 1).

Definition key (r : Row) : Z * Z := (year r, month r).

(** Rows ordered by strictly increasing (year, month). *)
Definition key_lt (a b : Z * Z) : Prop :=
  fst a < fst b \/ (fst a = fst b /\ snd a < snd b).

Fixpoint strictly_increasing (rows : list Row) : Prop :=
  match rows with
  | [] => True
  | a :: rest =>
      match rest with
      | [] => True
      | b :: _ => key_lt (key a) (key b) /\ strictly_increasing rest
      end
  end.

(** Chronological order: indices grow along the list. *)
Definition chronological (l : list (Z * Z)) : Prop :=
  forall i j a b,
    nth_error l i = Some a -> nth_error l j = Some b ->
    (i < j)%nat -> month_index a < month_index b.

End MonthlySeries.

(** ** The store *)

Record Tenant : Type := mkTenant {
  tenant_id : Z;
  tenant_api_domain : string;
  lti_key : string
}.

Record Course : Type := mkCourse {
  course_id : Z;
  canvas_course_id : Z;
  course_tenant_id : Z;
  course_name : option string;
  privacydashboard_url : option string
}.

Record User : Type := mkUser {
  user_id : Z;
  external_id : string;
  user_tenant_id : Z;
  user_name : option string
}.

Record Credential : Type := mkCredential {
  credential_id : Z;
  credential_name : string;
  description : string;
  anonymous : bool;
  datashare : bool;
  credential_tenant_id : option Z
}.

Record Opt_out : Type := mkOpt_out {
  opt_out_user_id : Z;
  opt_out_credential_id : Z
}.

(** The tables. [credential_users] is the association of the Credential
    model with the User model that [getDataUses] includes: it is declared in
    lrs-core/db, which is not part of the sources at hand, and is taken as
    it is. [statement_months u t] is the answer of the GROUP BY year, month
    query over the statements of user [u] in tenant [t]. *)
Record DB : Type := mkDB {
  tenants : list Tenant;
  courses : list Course;
  users : list User;
  credentials : list Credential;
  opt_outs : list Opt_out;
  credential_users : Z -> list User;
  statement_months : Z -> Z -> list MonthlySeries.Row
}.

Inductive table : Type :=
  Tenants | Courses | Users | Credentials | Opt_outs | Statements.

Inductive store_op : Type :=
| FindOne (t : table)
| FindByPk (t : table)
| FindAll (t : table)
| FindOrCreate (t : table)
| Update (t : table)
| Destroy (t : table)
| Query (t : table).

Inductive level : Type := Info | Warn | Error.

(** The world of a call: the tables, what the store calls to come will
    answer ([Some m]: the call fails with message [m]; [None], or nothing
    left: it succeeds), the store calls made so far, and the log. *)
Record World : Type := mkWorld {
  db : DB;
  faults : list (option string);
  trace : list store_op;
  logged : list (level * string)
}.

(** *** A state monad over the world *)

Definition M (A : Type) : Type := World -> A * World.

Definition ret {A} (a : A) : M A := fun w => (a, w).

Definition bind {A B} (m : M A) (k : A -> M B) : M B :=
  fun w => let (a, w') := m w in k a w'.

Notation "x <- m ;; k" := (bind m (fun x => k))
  (at level 61, m at next level, right associativity).
Notation "m ;;; k" := (bind m (fun _ => k))
  (at level 61, right associativity).

Definition log (l : level) (message : string) : M unit :=
  fun w => (tt, mkWorld (db w) (faults w) (trace w) (logged w ++ [(l, message)])).

(** One store call: it is traced, consumes one answer of the environment,
    and either fails with the message (the tables untouched) or runs. *)
Definition store {A} (op : store_op) (run : DB -> A * DB) : M (string + A) :=
  fun w =>
    match faults w with
    | Some m :: rest =>
        (inl m, mkWorld (db w) rest (trace w ++ [op]) (logged w))
    | None :: rest =>
        let (a, d) := run (db w) in
        (inr a, mkWorld d rest (trace w ++ [op]) (logged w))
    | [] =>
        let (a, d) := run (db w) in
        (inr a, mkWorld d [] (trace w ++ [op]) (logged w))
    end.

(** A serial primary key: larger than every id in use. *)
Definition next_id (ids : list Z) : Z := 1 + fold_right Z.max 0 ids.

(** ** Parameter validation (Joi) *)

Definition quoted (key : string) : string :=
  let q := String (ascii_of_nat 34) EmptyString in (q ++ key ++ q)%string.

Definition is_alphanum (c : ascii) : bool :=
  let n := nat_of_ascii c in
  ((48 <=? n) && (n <=? 57) || (65 <=? n) && (n <=? 90)
   || (97 <=? n) && (n <=? 122))%nat.

(** A validation answers the first error message, or the validated value.
    [Joi.string().required()]: a string, and not the empty one. *)
Definition joi_string_required (key : string) (v : jsval) : string + string :=
  match v with
  | JUndefined => inl (quoted key ++ " is required")%string
  | JStr EmptyString => inl (quoted key ++ " is not allowed to be empty")%string
  | JStr s => inr s
  | _ => inl (quoted key ++ " must be a string")%string
  end.

(** [Joi.string().alphanum().length(32)]: the key is not required, so
    [undefined] is valid; the rules run in the order they are chained. *)
Definition joi_string_alphanum_length (key : string) (n : nat) (v : jsval)
  : string + option string :=
  match v with
  | JUndefined => inr None
  | JStr EmptyString => inl (quoted key ++ " is not allowed to be empty")%string
  | JStr s =>
      if negb (forallb is_alphanum (list_ascii_of_string s))
      then inl (quoted key ++ " must only contain alpha-numeric characters")%string
      else if negb (Nat.eqb (String.length s) n)
      then inl (quoted key ++ " length must be "
                ++ NilZero.string_of_uint (Nat.to_uint n)
                ++ " characters long")%string
      else inr (Some s)
  | _ => inl (quoted key ++ " must be a string")%string
  end.

Section API.

(** The number a string converts to, as Joi (convert mode) and the store's
    driver read it; [None] when the string is not a number. *)
Variable str_to_number : string -> option Z.

Definition to_number (v : jsval) : option Z :=
  match v with
  | JNum n => Some n
  | JStr s => str_to_number s
  | _ => None
  end.

(** [Joi.number().required()] *)
Definition joi_number_required (key : string) (v : jsval) : string + Z :=
  match v with
  | JUndefined => inl (quoted key ++ " is required")%string
  | _ => match to_number v with
         | Some n => inr n
         | None => inl (quoted key ++ " must be a number")%string
         end
  end.

Definition bad_request {A} (message : string) : M (outcome A) :=
  ret (Callback (Some (mkError 400 message)) None).

Definition store_error {A} (message : string) : M (outcome A) :=
  ret (Callback (Some (mkError 500 message)) None).

(** ** lrs-users *)

(** The row of [DB.User] with the natural key (external_id, tenant_id). *)
Definition find_user (externalId : string) (tenantId : Z) (d : DB)
  : option User :=
  find (fun u => String.eqb (external_id u) externalId
                 && (user_tenant_id u =? tenantId)) (users d).

Definition tenant_of (tenantId : Z) (d : DB) : option Tenant :=
  find (fun t => tenant_id t =? tenantId) (tenants d).

(** [DB.User.findOne({where: {external_id, tenant_id}, include: [Tenant]})]
    and the completion callback. *)
Definition getUserByExternalId (externalId tenantId : jsval)
  : M (outcome (User * option Tenant)) :=
  match joi_string_required "externalId" externalId with
  | inl message => bad_request message
  | inr ext =>
  match joi_number_required "tenantId" tenantId with
  | inl message => bad_request message
  | inr t =>
      r <- store (FindOne Users)
             (fun d => (match find_user ext t d with
                        | Some u => Some (u, tenant_of (user_tenant_id u) d)
                        | None => None
                        end, d)) ;;
      match r with
      | inl m =>
          log Error "An error occurred when getting a user" ;;;
          store_error m
      | inr None =>
          log Warn "Could not find a user" ;;;
          ret (Callback None None)
      | inr (Some user) => ret (Callback None (Some user))
      end
  end
  end.

(** [DB.User.findOrCreate({where: {external_id, tenant_id}, defaults: {name}})]:
    the row with the natural key, or a new row built from the key and the
    defaults; the flag says whether the row was created. *)
Definition findOrCreate_user (externalId : string) (tenantId : Z)
    (name : option string) (d : DB) : (User * bool) * DB :=
  match find_user externalId tenantId d with
  | Some u => ((u, false), d)
  | None =>
      let u := mkUser (next_id (map user_id (users d))) externalId tenantId name in
      ((u, true),
       mkDB (tenants d) (courses d) (users d ++ [u]) (credentials d)
            (opt_outs d) (credential_users d) (statement_months d))
  end.

(** The schema accepts every value for [name] (a string, or anything by
    [Joi.allow(null)]); the callers pass a string or null. *)
Definition getOrCreateUser (externalId tenantId : jsval) (name : option string)
  : M (outcome User) :=
  match joi_string_required "externalId" externalId with
  | inl message => bad_request message
  | inr ext =>
  match joi_number_required "tenantId" tenantId with
  | inl message => bad_request message
  | inr t =>
      r <- store (FindOrCreate Users) (findOrCreate_user ext t name) ;;
      match r with
      | inl m =>
          log Error "Failed to get or create a user" ;;;
          store_error m
      | inr (user, wasCreated) =>
          (if wasCreated then log Info "Created a new user" else ret tt) ;;;
          ret (Callback None (Some user))
      end
  end
  end.

(** The request context: [ctx.auth.tenant_id] is a number, or is missing
    ([None]); [ctx.user] is the current user, when there is one. *)
Record Auth : Type := mkAuth { auth_tenant_id : option Z }.
Record CtxUser : Type := mkCtxUser { ctx_user_id : Z; ctx_user_tenant_id : Z }.
Record Ctx : Type := mkCtx { ctx_auth : option Auth; ctx_user : option CtxUser }.

(** JavaScript truth of a number that may be missing. *)
Definition truthy (v : option Z) : bool :=
  match v with
  | Some n => negb (n =? 0)
  | None => false
  end.

(** [getTotalActivities]: the guard, the query, and the loop over the
    months. The answer is [None] when the loop is still running after
    [fuel] iterations. *)
Definition getTotalActivities (fuel : nat) (now : string) (ctx : option Ctx)
  : M (option (outcome (list MonthlySeries.Activity))) :=
  let prevented :=
    log Warn "Prevented getting the total activities per month for the current user" ;;;
    ret (Some (Callback (Some (mkError 500
      "Prevented getting the total activities per month for the current user")) None)) in
  match ctx with
  | None => prevented
  | Some c =>
  match ctx_user c with
  | None => prevented
  | Some user =>
      r <- store (Query Statements)
             (fun d => (statement_months d (ctx_user_id user)
                          (ctx_user_tenant_id user), d)) ;;
      match r with
      | inl m =>
          log Error "An error occurred when getting the total activities per month for a user" ;;;
          ret (Some (Callback (Some (mkError 500 m)) None))
      | inr results =>
          ret (match MonthlySeries.series fuel now results with
               | Some totalActivities => Some (Callback None (Some totalActivities))
               | None => None
               end)
      end
  end
  end.

(** An element of the answer of [getDataUses]. *)
Record DataUse : Type := mkDataUse {
  id : Z;
  name : string;
  data_use_description : string;
  data_use_anonymous : bool;
  share : bool
}.

(** A row of [DB.Credential.findAll]: [row_users] is the included [users]
    property, which exists only when the query includes the User model. *)
Record CredentialRow : Type := mkCredentialRow {
  row_credential : Credential;
  row_users : option (list User)
}.

(** The [where] of [getDataUses]:
    (tenant_id = tenantId AND datashare = true) OR tenant_id IS NULL. *)
Definition data_use_where (tenantId : Z) (c : Credential) : bool :=
  match credential_tenant_id c with
  | Some t => (t =? tenantId) && datashare c
  | None => true
  end.

(** The [include] of the User model: not required (an outer join), and
    restricted to the current user in the tenant; without a current user the
    query includes nothing and the rows have no [users] property. *)
Definition included_users (tenantId : Z) (user : option CtxUser) (d : DB)
    (c : Credential) : option (list User) :=
  match user with
  | Some u =>
      Some (filter (fun x => (user_id x =? ctx_user_id u)
                             && (user_tenant_id x =? tenantId))
              (credential_users d (credential_id c)))
  | None => None
  end.

Definition findAll_credentials (tenantId : Z) (user : option CtxUser) (d : DB)
  : list CredentialRow :=
  map (fun c => mkCredentialRow c (included_users tenantId user d c))
      (filter (data_use_where tenantId) (credentials d)).

(** The mapping of a row to the response. *)
Definition data_use_of (dataUse : CredentialRow) : DataUse :=
  let optedOut :=
    match row_users dataUse with
    | None => true
    | Some us => (List.length us <=? 0)%nat
    end in
  mkDataUse (credential_id (row_credential dataUse))
            (credential_name (row_credential dataUse))
            (description (row_credential dataUse))
            (anonymous (row_credential dataUse))
            optedOut.

Definition prevented_data_uses : error :=
  mkError 500 "Prevented getting the projects that have access to the current user data".

Definition getDataUses (ctx : option Ctx) : M (outcome (list DataUse)) :=
  let prevented :=
    log Warn "Prevented getting the projects that have access to the current user data" ;;;
    ret (Callback (Some prevented_data_uses) None) in
  match ctx with
  | None => prevented
  | Some c =>
  match ctx_auth c with
  | None => ret (Throws (TypeError "Cannot read property 'tenant_id' of undefined"))
  | Some auth =>
      (* [!ctx.auth.tenant_id]: the id is missing, or is the number 0 *)
      match auth_tenant_id auth with
      | None => prevented
      | Some tenantId =>
          if tenantId =? 0 then prevented
          else
            r <- store (FindAll Credentials)
                   (fun d => (findAll_credentials tenantId (ctx_user c) d, d)) ;;
            match r with
            | inl m =>
                log Error "An error occurred when getting the data usage details for user" ;;;
                store_error m
            | inr dataUses => ret (Callback None (Some (map data_use_of dataUses)))
            end
      end
  end
  end.

(** The body of a data-sharing request: [{id: ..., share: ...}]. *)
Record DataUseRequest : Type := mkDataUseRequest {
  request_id : Z;
  request_share : jsval
}.

(** [DB.Opt_out.findOrCreate({where: {user_id, credential_id}})] *)
Definition findOrCreate_opt_out (userId credentialId : Z) (d : DB)
  : (Opt_out * bool) * DB :=
  match find (fun o => (opt_out_user_id o =? userId)
                       && (opt_out_credential_id o =? credentialId))
             (opt_outs d) with
  | Some o => ((o, false), d)
  | None =>
      let o := mkOpt_out userId credentialId in
      ((o, true),
       mkDB (tenants d) (courses d) (users d) (credentials d)
            (opt_outs d ++ [o]) (credential_users d) (statement_months d))
  end.

(** [DB.Opt_out.destroy({where: {user_id, credential_id}})]: the number of
    rows deleted, and the table without them. *)
Definition destroy_opt_out (userId credentialId : Z) (d : DB) : Z * DB :=
  let matches o := (opt_out_user_id o =? userId)
                   && (opt_out_credential_id o =? credentialId) in
  (Z.of_nat (List.length (filter matches (opt_outs d))),
   mkDB (tenants d) (courses d) (users d) (credentials d)
        (filter (fun o => negb (matches o)) (opt_outs d))
        (credential_users d) (statement_months d)).

Definition undefined_user {A} : M (outcome A) :=
  ret (Throws (TypeError "Cannot read property 'id' of undefined")).

Definition getOrCreateOptOutDetails (ctx : option Ctx) (dataUse : DataUseRequest)
  : M (outcome Opt_out) :=
  match ctx with
  | None => ret (Throws (TypeError "Cannot read property 'user' of null"))
  | Some c =>
  match ctx_user c with
  | None => undefined_user
  | Some user =>
      log Info "Get OptOut details datause input :" ;;;
      log Info "Get OptOut details datause input :" ;;;
      r <- store (FindOrCreate Opt_outs)
             (findOrCreate_opt_out (ctx_user_id user) (request_id dataUse)) ;;
      match r with
      | inl m =>
          log Error "Failed to get or create a user opt-out for data share" ;;;
          store_error m
      | inr data =>
          let userOptOutDetails := fst data in
          log Info "Creating/Retrieving Opt-out record in the table" ;;;
          ret (Callback None (Some userOptOutDetails))
      end
  end
  end.

(** [saveUserOptOut]. In the branch [share === false] the callback given to
    [getOrCreateOptOutDetails] evaluates [{id: id}] on an error whose code is
    not 404: no [id] is in scope, which is a ReferenceError. In the branch
    [share === true] the delete is started, its failure handler only logs,
    and [callback()] is returned at once. *)
Definition saveUserOptOut (ctx : option Ctx) (dataUse : DataUseRequest)
  : M (outcome unit) :=
  log Info "Sample datause input :" ;;;
  match request_share dataUse with
  | JBool false =>
      r <- getOrCreateOptOutDetails ctx dataUse ;;
      match r with
      | Throws e => ret (Throws e)
      | NoCallback => ret NoCallback
      | Callback err results =>
          let succeeded :=
            match results with
            | Some _ =>
                log Info "The user %d has opt-out of data share for the project %d. Opt-out successful !" ;;;
                ret (Callback None None)
            | None => ret NoCallback
            end in
          match err with
          | Some e =>
              if negb (code e =? 404)
              then ret (Throws (ReferenceError "id is not defined"))
              else succeeded
          | None => succeeded
          end
      end
  | JBool true =>
      match ctx with
      | None => ret (Throws (TypeError "Cannot read property 'user' of null"))
      | Some c =>
      match ctx_user c with
      | None => undefined_user
      | Some user =>
          r <- store (Destroy Opt_outs)
                 (destroy_opt_out (ctx_user_id user) (request_id dataUse)) ;;
          match r with
          | inr rowDeleted =>
              (if rowDeleted =? 1
               then log Info "The user %d has chosen to Opt-in for data share for project %d. Opt-in successful !"
               else ret tt) ;;;
              ret (Callback None None)
          | inl m =>
              log Error m ;;;
              ret (Callback None None)
          end
      end
      end
  | _ =>
      log Info "The datause object has a wrong share value. Share has to be of type Boolean." ;;;
      ret (Callback None None)
  end.

(** ** lrs-course *)

(** The Canvas instance a course runs on; [canvas.id] is the tenant id. *)
Record Canvas : Type := mkCanvas { canvas_id : Z }.

(** [courseInfo]: each key is a string when it is present. *)
Record CourseInfo : Type := mkCourseInfo {
  info_name : option string;
  info_privacydashboard_url : option string
}.

(** [Joi.string().optional()] on a key that is a string when present. *)
Definition joi_string_optional (key : string) (v : option string)
  : option string :=
  match v with
  | Some EmptyString => Some (quoted key ++ " is not allowed to be empty")%string
  | _ => None
  end.

Definition joi_course_info (courseInfo : option CourseInfo) : option string :=
  match courseInfo with
  | None => None
  | Some info =>
      match joi_string_optional "name" (info_name info) with
      | Some message => Some message
      | None => joi_string_optional "privacydashboard_url"
                  (info_privacydashboard_url info)
      end
  end.

Definition find_course (canvasCourseId tenantId : Z) (d : DB) : option Course :=
  find (fun c => (canvas_course_id c =? canvasCourseId)
                 && (course_tenant_id c =? tenantId)) (courses d).

(** [DB.Course.findOrCreate({where: {canvas_course_id, tenant_id},
    defaults: {name, privacydashboard_url}})] *)
Definition findOrCreate_course (canvasCourseId tenantId : Z)
    (name url : option string) (d : DB) : (Course * bool) * DB :=
  match find_course canvasCourseId tenantId d with
  | Some c => ((c, false), d)
  | None =>
      let c := mkCourse (next_id (map course_id (courses d)))
                        canvasCourseId tenantId name url in
      ((c, true),
       mkDB (tenants d) (courses d ++ [c]) (users d) (credentials d)
            (opt_outs d) (credential_users d) (statement_months d))
  end.

(** The values that [course.update(courseInfo)] sets: the keys present. *)
Definition updated_course (course : Course) (courseInfo : CourseInfo) : Course :=
  mkCourse (course_id course) (canvas_course_id course) (course_tenant_id course)
    (match info_name courseInfo with
     | Some n => Some n
     | None => course_name course
     end)
    (match info_privacydashboard_url courseInfo with
     | Some u => Some u
     | None => privacydashboard_url course
     end).

(** [course.update(courseInfo)]: the stored row with the id of [course] is
    replaced by the updated instance. *)
Definition update_course (course : Course) (courseInfo : CourseInfo) (d : DB)
  : Course * DB :=
  let course' := updated_course course courseInfo in
  (course',
   mkDB (tenants d)
        (map (fun c => if course_id c =? course_id course then course' else c)
             (courses d))
        (users d) (credentials d) (opt_outs d) (credential_users d)
        (statement_months d)).

Definition getOrCreateCourse (canvasCourseId : jsval) (canvas : option Canvas)
    (courseInfo : option CourseInfo) : M (outcome Course) :=
  match joi_number_required "canvasCourseId" canvasCourseId with
  | inl message => bad_request message
  | inr courseId =>
  match canvas with
  | None => bad_request (quoted "canvas" ++ " is required")%string
  | Some canvas =>
  match joi_course_info courseInfo with
  | Some message => bad_request message
  | None =>
  match courseInfo with
  | None => ret (Throws (TypeError "Cannot read property 'name' of undefined"))
  | Some info =>
      r <- store (FindOrCreate Courses)
             (findOrCreate_course courseId (canvas_id canvas)
                (info_name info) (info_privacydashboard_url info)) ;;
      match r with
      | inl m =>
          log Error "Failed to get or create a course" ;;;
          store_error m
      | inr (course, wasCreated) =>
          if wasCreated then
            log Info "Created a new course" ;;;
            ret (Callback None (Some course))
          else
            r' <- store (Update Courses) (update_course course info) ;;
            match r' with
            | inl m =>
                log Error "Failed to update a course" ;;;
                store_error m
            | inr course' => ret (Callback None (Some course'))
            end
      end
  end
  end
  end
  end.

(** [DB.Course.findByPk(id, {include: [{model: Tenant, as: 'tenant'}]})] *)
Definition getCourse (id : Z) : M (outcome (Course * option Tenant)) :=
  r <- store (FindByPk Courses)
         (fun d => (match find (fun c => course_id c =? id) (courses d) with
                    | Some c => Some (c, tenant_of (course_tenant_id c) d)
                    | None => None
                    end, d)) ;;
  match r with
  | inl m =>
      log Error "Failed to get a course" ;;;
      store_error m
  | inr None =>
      log Error "Failed to retrieve the course" ;;;
      ret (Callback (Some (mkError 404 "Failed to retrieve the course")) None)
  | inr (Some course) => ret (Callback None (Some course))
  end.

(** ** lrs-tenant *)

(** [DB.Tenant.findOne({where: {tenant_api_domain, lti_key}})]; a key that
    is [undefined] equals the key of no row. *)
Definition find_tenant (apiDomain : string) (ltiKey : option string) (d : DB)
  : option Tenant :=
  match ltiKey with
  | Some k =>
      find (fun t => String.eqb (tenant_api_domain t) apiDomain
                     && String.eqb (lti_key t) k) (tenants d)
  | None => None
  end.

Definition getTenant (apiDomain ltiKey : jsval) : M (outcome Tenant) :=
  match joi_string_required "apiDomain" apiDomain with
  | inl message => bad_request message
  | inr domain =>
  match joi_string_alphanum_length "ltiKey" 32 ltiKey with
  | inl message => bad_request message
  | inr key =>
      r <- store (FindOne Tenants) (fun d => (find_tenant domain key d, d)) ;;
      match r with
      | inl m =>
          log Error "Failed to get a Tenant(Canvas) instance" ;;;
          store_error m
      | inr None =>
          log Warn "A Tenant(Canvas) instance with the specified api domain and consumer lti key could not be found" ;;;
          ret (Callback (Some (mkError 404
            "A Tenant(Canvas) instance with the specified api domain and consumer lti key could not be found")) None)
      | inr (Some tenant) => ret (Callback None (Some tenant))
      end
  end
  end.

End API.

(** ** The other readers *)

Section Readers.

Variable str_to_number : string -> option Z.

(** The [active] column of the course with a given id. No function of
    these files writes the column, and the rows of [courses] do not carry
    it: it is read as the store holds it. *)
Variable active : Z -> bool.

(** The attributes that [getCoursePublic] selects. *)
Record CoursePublic : Type := mkCoursePublic {
  public_id : Z;
  public_name : option string;
  public_canvas_course_id : Z;
  public_active : bool;
  public_privacydashboard_url : option string
}.

Definition public_view (c : Course) : CoursePublic :=
  mkCoursePublic (course_id c) (course_name c) (canvas_course_id c)
                 (active (course_id c)) (privacydashboard_url c).

(** [DB.Course.findOne({where: {canvas_course_id, tenant_id},
    attributes: [...]})] and the completion callback. *)
Definition getCoursePublic (canvasCourseId tenantId : jsval)
  : M (outcome CoursePublic) :=
  match joi_number_required str_to_number "canvasCourseId" canvasCourseId with
  | inl message => bad_request message
  | inr courseId =>
  match joi_number_required str_to_number "tenantId" tenantId with
  | inl message => bad_request message
  | inr t =>
      r <- store (FindOne Courses)
             (fun d => (match find_course courseId t d with
                        | Some c => Some (public_view c)
                        | None => None
                        end, d)) ;;
      match r with
      | inl m =>
          log Error "Failed to get a course" ;;;
          store_error m
      | inr None =>
          log Error "Failed to retrieve the course" ;;;
          ret (Callback (Some (mkError 404 "Failed to retrieve the course")) None)
      | inr (Some course) => ret (Callback None (Some course))
      end
  end
  end.

(** [DB.Tenant.findAll()] *)
Definition getTenants : M (outcome (list Tenant)) :=
  r <- store (FindAll Tenants) (fun d => (tenants d, d)) ;;
  match r with
  | inl m =>
      log Error "Failed to retrieve all Tenant instances" ;;;
      store_error m
  | inr all => ret (Callback None (Some all))
  end.

Definition find_opt_out (userId credentialId : Z) (d : DB) : option Opt_out :=
  find (fun o => (opt_out_user_id o =? userId)
                 && (opt_out_credential_id o =? credentialId)) (opt_outs d).

(** [isStudentOptedOut]: [DB.Opt_out.findOne({where: {user_id,
    credential_id}})]. On an error the callback builds
    [{err: err, external_id: externalId}] for the log: no [externalId] is in
    scope, which is a ReferenceError, and [callback] is not reached. *)
Definition isStudentOptedOut (userId consumerCredentialId : Z)
  : M (outcome Opt_out) :=
  r <- store (FindOne Opt_outs)
         (fun d => (find_opt_out userId consumerCredentialId d, d)) ;;
  match r with
  | inl _ => ret (Throws (ReferenceError "externalId is not defined"))
  | inr data => ret (Callback None data)
  end.

End Readers.

(** ** Keys and sums, for the statements of the properties *)

Definition user_key (u : User) : string * Z := (external_id u, user_tenant_id u).

Definition course_key (c : Course) : Z * Z :=
  (canvas_course_id c, course_tenant_id c).

Definition opt_out_key (o : Opt_out) : Z * Z :=
  (opt_out_user_id o, opt_out_credential_id o).

(** The rows of [opt_outs] for a (user, credential) pair. *)
Definition opt_out_matches (userId credentialId : Z) (o : Opt_out) : bool :=
  (opt_out_user_id o =? userId) && (opt_out_credential_id o =? credentialId).

(** The course that a successful [getOrCreateCourse] answers, and the
    tables it leaves: the row found, updated, or the row created. *)
Definition course_tables (courseId t : Z) (info : CourseInfo) (d : DB) : Course * DB :=
  match find_course courseId t d with
  | Some c => update_course c info d
  | None =>
      (fst (fst (findOrCreate_course courseId t (info_name info)
                   (info_privacydashboard_url info) d)),
       snd (findOrCreate_course courseId t (info_name info)
              (info_privacydashboard_url info) d))
  end.

Definition sum_Z (l : list Z) : Z := fold_right Z.add 0 l.

(** The total that the loop of [getTotalActivities] reads for a month. *)
Definition total_at (rows : list MonthlySeries.Row) (ym : Z * Z) : Z :=
  match MonthlySeries.find_month rows (fst ym) (snd ym) with
  | Some r => MonthlySeries.total r
  | None => 0
  end.

(** ** Reference predicates and sample worlds *)

(** An LTI key as the specification wants it: a string of exactly 32
    alphanumeric characters. *)
Definition lti_key_ok (v : jsval) : bool :=
  match v with
  | JStr s => Nat.eqb (String.length s) 32
              && forallb is_alphanum (list_ascii_of_string s)
  | _ => false
  end.

(** A store without rows, and a world where no store call fails. *)
Definition empty_db : DB :=
  mkDB [] [] [] [] [] (fun _ => []) (fun _ _ => []).

Definition empty_world : World := mkWorld empty_db [] [] [].

(** A world with one course, where the second store call fails. *)
Definition logic_course_world : World :=
  mkWorld (mkDB [] [mkCourse 1 7 1 (Some "Logic") None] [] [] []
             (fun _ => []) (fun _ _ => []))
          [None; Some "connection lost"] [] [].

(** The example credentials, the first of them associated with user 4 of
    tenant 1. *)
Definition linked_world : World :=
  mkWorld (mkDB [] [] [mkUser 4 "jdoe" 1 (Some "Jane")]
             [mkCredential 1 "Dashboard" "Course dashboard" false true (Some 1);
              mkCredential 3 "Research" "Learning analytics research" true false None]
             []
             (fun c => if c =? 1 then [mkUser 4 "jdoe" 1 (Some "Jane")] else [])
             (fun _ _ => []))
          [] [] [].

(** Three credentials: one that shares data in tenant 1, one of tenant 2
    that does not share, one without a tenant. *)
Definition example_credentials : list Credential :=
  [mkCredential 1 "Dashboard" "Course dashboard" false true (Some 1);
   mkCredential 2 "Advising" "Advising of another campus" false false (Some 2);
   mkCredential 3 "Research" "Learning analytics research" true false None].

Definition example_world : World :=
  mkWorld (mkDB [] [] [] example_credentials [] (fun _ => []) (fun _ _ => []))
          [] [] [].

(** * Properties *)

(** ** The monthly series *)

Section MonthlySeriesFacts.
Import MonthlySeries.

Variables (results : list Row) (now : string).

Lemma next_month_index (ym : Z * Z) :
  calendar_month ym ->
  calendar_month (next_month ym)
  /\ month_index (next_month ym) = month_index ym + 1.
Proof.
  unfold calendar_month, next_month, month_index.
  destruct ym as [y m]; cbn [fst snd]; intros Hm.
  destruct (Z.eqb_spec m 12); cbn [fst snd]; lia.
Qed.

(** Calendar months are equal when their indices are. *)
Lemma month_index_inj (a b : Z * Z) :
  calendar_month a -> calendar_month b ->
  month_index a = month_index b -> a = b.
Proof.
  unfold calendar_month, month_index.
  destruct a as [y m], b as [y' m']; cbn [fst snd]; intros Ha Hb H.
  assert (y = y') by lia. subst. f_equal. lia.
Qed.

(** The loop bound of a row in December is month 13 of the same year: no
    month that the counter takes meets it, and the loop never exits. *)
Lemma fill_months_december (fuel : nat) :
  forall lastActivityYear currentYear currentMonth totalActivities,
    1 <= currentMonth <= 12 ->
    fill_months fuel results now lastActivityYear 13
      currentYear currentMonth totalActivities = None.
Proof.
  induction fuel as [|fuel IH]; intros ly cy cm acc Hcm; simpl.
  - replace (cm =? 13) with false by (symmetry; apply Z.eqb_neq; lia).
    rewrite orb_true_r. reflexivity.
  - replace (cm =? 13) with false by (symmetry; apply Z.eqb_neq; lia).
    rewrite orb_true_r.
    destruct (Z.eqb_spec cm 12); apply IH; lia.
Qed.

(** Below December the bound is a calendar month, and the loop pushes the
    months up to the one before it. *)
Lemma fill_months_reaches (n : nat) :
  forall fuel lastActivityYear lastActivityMonth currentYear currentMonth
         totalActivities,
    1 <= currentMonth <= 12 ->
    1 <= lastActivityMonth <= 11 ->
    month_index (lastActivityYear, lastActivityMonth + 1)
      - month_index (currentYear, currentMonth) = Z.of_nat n ->
    (n <= fuel)%nat ->
    fill_months fuel results now lastActivityYear (lastActivityMonth + 1)
      currentYear currentMonth totalActivities
    = Some (totalActivities
            ++ map (fun ym => result_of results now (fst ym) (snd ym))
                 (months_from (currentYear, currentMonth) n)).
Proof.
  assert (Hindex : forall y m, month_index (y, m) = 12 * y + (m - 1))
    by reflexivity.
  induction n as [|n IH]; intros fuel ly lm cy cm acc Hcm Hlm Hidx Hfuel.
  - assert (E : (cy, cm) = (ly, lm + 1)).
    { apply month_index_inj; unfold calendar_month; cbn [fst snd]; lia. }
    injection E as -> ->.
    destruct fuel; cbn [fill_months]; rewrite !Z.eqb_refl; cbn;
      now rewrite app_nil_r.
  - destruct fuel as [|fuel]; [lia|].
    assert (Hne : negb (cy =? ly) || negb (cm =? lm + 1) = true).
    { destruct (Z.eqb_spec cy ly); cbn; [|reflexivity].
      destruct (Z.eqb_spec cm (lm + 1)); cbn; [|reflexivity].
      subst. lia. }
    cbn [fill_months]. rewrite Hne.
    cbn [months_from map]. unfold next_month; cbn [fst snd].
    rewrite !Hindex in Hidx.
    destruct (Z.eqb_spec cm 12) as [->|Hn12].
    + rewrite (IH fuel ly lm (cy + 1) 1); try lia.
      * now rewrite <- app_assoc.
      * rewrite !Hindex. lia.
    + rewrite (IH fuel ly lm cy (cm + 1)); try lia.
      * now rewrite <- app_assoc.
      * rewrite !Hindex. lia.
Qed.

Lemma months_from_length (n : nat) :
  forall ym, List.length (months_from ym n) = n.
Proof.
  induction n as [|n IH]; intros ym; cbn [months_from List.length]; auto.
Qed.

(** The months of [months_from ym n] are the calendar months whose index is
    one of the [n] indices that start at the index of [ym]. *)
Lemma months_from_In (n : nat) :
  forall ym x,
    calendar_month ym ->
    (In x (months_from ym n)
     <-> calendar_month x
         /\ month_index ym <= month_index x < month_index ym + Z.of_nat n).
Proof.
  induction n as [|n IH]; intros ym x Hym; cbn [months_from In].
  - split; [tauto | lia].
  - destruct (next_month_index ym Hym) as [Hcal Hnext].
    rewrite (IH _ x Hcal), Hnext. split.
    + intros [<- | [Hx Hr]]; split; auto; lia.
    + intros [Hx Hr].
      destruct (Z.eq_dec (month_index x) (month_index ym)) as [E|E].
      * left. symmetry. now apply month_index_inj.
      * right. split; auto. lia.
Qed.

Lemma months_from_nth (n : nat) :
  forall ym i a,
    calendar_month ym ->
    nth_error (months_from ym n) i = Some a ->
    month_index a = month_index ym + Z.of_nat i.
Proof.
  induction n as [|n IH]; intros ym i a Hym; cbn [months_from].
  - destruct i; discriminate.
  - destruct i as [|i]; cbn [nth_error].
    + intros [= <-]. lia.
    + intros H. destruct (next_month_index ym Hym) as [Hcal Hnext].
      rewrite (IH _ _ _ Hcal H), Hnext. lia.
Qed.

Lemma months_from_chronological (n : nat) (ym : Z * Z) :
  calendar_month ym -> chronological (months_from ym n).
Proof.
  intros Hym i j a b Ha Hb Hij.
  rewrite (months_from_nth _ _ _ _ Hym Ha), (months_from_nth _ _ _ _ Hym Hb).
  lia.
Qed.

Lemma months_from_NoDup (n : nat) :
  forall ym, calendar_month ym -> NoDup (months_from ym n).
Proof.
  induction n as [|n IH]; intros ym Hym; cbn [months_from]; constructor.
  - destruct (next_month_index ym Hym) as [Hcal Hnext].
    rewrite (months_from_In n _ ym Hcal). lia.
  - apply IH. now apply next_month_index.
Qed.

(** A month with no row has total 0; a month with a row has the total of
    the first row that carries it. *)
Lemma result_of_absent (y m : Z) :
  (forall r, In r results -> key r <> (y, m)) ->
  period_total (result_of results now y m) = 0.
Proof.
  intros Habsent. unfold result_of, find_month. cbn [period_total].
  destruct (find _ results) as [r|] eqn:E; [|reflexivity].
  apply find_some in E. destruct E as [Hin Hkey].
  apply andb_prop in Hkey. destruct Hkey as [Hy Hm].
  apply Z.eqb_eq in Hy, Hm. exfalso. apply (Habsent r Hin).
  unfold key. congruence.
Qed.


Lemma key_lt_index (a b : Z * Z) :
  calendar_month a -> calendar_month b -> key_lt a b ->
  month_index a < month_index b.
Proof.
  unfold calendar_month, key_lt, month_index. lia.
Qed.

Lemma last_Forall {A} (P : A -> Prop) (l : list A) :
  forall a d, Forall P (a :: l) -> P (last (a :: l) d).
Proof.
  induction l as [|b l IH]; intros a d H.
  - now inversion H.
  - change (P (last (b :: l) d)). apply IH. now inversion H.
Qed.

Lemma strictly_increasing_last (rows : list Row) :
  forall first d,
    Forall (fun r => calendar_month (key r)) (first :: rows) ->
    strictly_increasing (first :: rows) ->
    month_index (key first) <= month_index (key (last (first :: rows) d)).
Proof.
  induction rows as [|b rows IH]; intros first d Hcal Hinc.
  - cbn. lia.
  - change (last (first :: b :: rows) d) with (last (b :: rows) d).
    destruct Hinc as [Hlt Hinc].
    inversion Hcal as [|? ? Hfirst Hrest]; subst.
    specialize (IH b d Hrest Hinc).
    assert (month_index (key first) < month_index (key b)).
    { apply key_lt_index; auto. now inversion Hrest. }
    lia.
Qed.

End MonthlySeriesFacts.

Section SeriesOfRows.
Import MonthlySeries.

Variables (now : string) (first : Row) (rest : list Row).

Let rows := first :: rest.
Let lastRow := last rows first.

Hypothesis rows_calendar : Forall (fun r => calendar_month (key r)) rows.

(** When the last row is not in December, the series is the dense one: the
    months from the first row's to the last row's, each pushed once. *)
Lemma series_dense (fuel : nat) :
  strictly_increasing rows ->
  month lastRow <> 12 ->
  (months_between (key first) (key lastRow) <= fuel)%nat ->
  series fuel now rows
  = Some (map (fun ym => result_of rows now (fst ym) (snd ym))
            (months_from (key first)
               (months_between (key first) (key lastRow)))).
Proof.
  intros Hinc Hdec Hfuel.
  assert (Hfirst : calendar_month (key first)) by now inversion rows_calendar.
  assert (Hlast : calendar_month (key lastRow))
    by exact (last_Forall _ rest first first rows_calendar).
  assert (Hle := strictly_increasing_last rest first first rows_calendar Hinc).
  fold rows in Hle. fold lastRow in Hle.
  unfold calendar_month in Hfirst, Hlast. unfold key in *. cbn [fst snd] in *.
  change (series fuel now rows)
    with (fill_months fuel rows now (year lastRow) (month lastRow + 1)
            (year first) (month first) []).
  rewrite (fill_months_reaches rows now
             (months_between (year first, month first)
                (year lastRow, month lastRow))); try lia.
  - reflexivity.
  - unfold months_between, month_index in *. cbn [fst snd] in *. lia.
Qed.

(** C2. When the last row is in December the bound of the loop is month 13
    of that year, which the code compares as it is: whatever the number of
    iterations allowed, the loop of [getTotalActivities] is still running. *)
Theorem series_december_never_terminates :
  month lastRow = 12 ->
  forall fuel, series fuel now rows = None.
Proof.
  intros Hdec fuel.
  assert (Hfirst : calendar_month (key first)) by now inversion rows_calendar.
  change (series fuel now rows)
    with (fill_months fuel rows now (year lastRow) (month lastRow + 1)
            (year first) (month first) []).
  rewrite Hdec. apply fill_months_december. exact Hfirst.
Qed.

End SeriesOfRows.

Lemma series_december_never_terminates_witness :
  MonthlySeries.series 1000 "May 2024" [MonthlySeries.mkRow 2023 12 5] = None.
Proof.
  apply (series_december_never_terminates "May 2024"
           (MonthlySeries.mkRow 2023 12 5) []).
  - repeat constructor; cbn; lia.
  - reflexivity.
Defined.

(** The example of the specification: rows for November 2023 and February
    2024 give four periods, the two in between with total 0. *)
Example series_november_to_february :
  MonthlySeries.series 4 "January 2024"
    [MonthlySeries.mkRow 2023 11 5; MonthlySeries.mkRow 2024 2 3]
  = Some [MonthlySeries.mkActivity "November 2023" 5 false;
          MonthlySeries.mkActivity "December 2023" 0 false;
          MonthlySeries.mkActivity "January 2024" 0 true;
          MonthlySeries.mkActivity "February 2024" 3 false].
Proof. vm_compute. reflexivity. Qed.

(** No result: empty series, without an iteration. *)
Example series_empty (now : string) : MonthlySeries.series 0 now [] = Some [].
Proof. reflexivity. Qed.

(** ** The store and the monad *)

Ltac run :=
  unfold bad_request, store_error, undefined_user, bind, ret, log, store;
  cbn [fst snd db faults trace logged auth_tenant_id ctx_auth ctx_user
       request_share request_id].

Lemma fold_max_le (ids : list Z) :
  forall i, In i ids -> i <= fold_right Z.max 0 ids.
Proof.
  induction ids as [|a ids IH]; intros i; cbn [In fold_right].
  - tauto.
  - intros [<- | H]; [lia|]. specialize (IH i H). lia.
Qed.

(** A serial id is the id of no row of the table. *)
Lemma next_id_fresh (ids : list Z) : forall i, In i ids -> i < next_id ids.
Proof.
  intros i H. unfold next_id. pose proof (fold_max_le ids i H). lia.
Qed.

Lemma filter_find_none {A} (f : A -> bool) (l : list A) :
  find f l = None -> filter f l = [].
Proof.
  induction l as [|a l IH]; cbn [find filter]; [reflexivity|].
  destruct (f a); [discriminate | exact IH].
Qed.

Lemma find_app_none {A} (f : A -> bool) (l : list A) (a : A) :
  find f l = None -> f a = true -> find f (l ++ [a]) = Some a.
Proof.
  induction l as [|b l IH]; cbn [find app]; intros Hnone Ha.
  - now rewrite Ha.
  - destruct (f b); [discriminate | auto].
Qed.

(** Replacing the row of a fresh id leaves the older rows as they are. *)
Lemma update_last_course (l : list Course) (c c' : Course) :
  (forall x, In x l -> course_id x < course_id c) ->
  map (fun x => if course_id x =? course_id c then c' else x) (l ++ [c])
  = l ++ [c'].
Proof.
  intros Hfresh. rewrite map_app. cbn [map]. rewrite Z.eqb_refl. f_equal.
  rewrite <- (map_id l) at 2. apply map_ext_in. intros x Hx.
  specialize (Hfresh x Hx).
  destruct (Z.eqb_spec (course_id x) (course_id c)); [lia | reflexivity].
Qed.

(** ** Find or create *)

Section GetOrCreate.

Variable str_to_number : string -> option Z.

(** The first call of [getOrCreateCourse] with a new natural key creates
    the row; the second call updates it with the course info it is given,
    and the table keeps one row for the key. *)
Lemma getOrCreateCourse_twice (w : World) canvasCourseId courseId canvas
    info1 info2 :
  faults w = [] ->
  joi_number_required str_to_number "canvasCourseId" canvasCourseId
    = inr courseId ->
  joi_course_info (Some info1) = None ->
  joi_course_info (Some info2) = None ->
  find_course courseId (canvas_id canvas) (db w) = None ->
  exists course w1 w2,
    getOrCreateCourse str_to_number canvasCourseId (Some canvas) (Some info1) w
      = (Callback None (Some course), w1)
    /\ courses (db w1) = courses (db w) ++ [course]
    /\ canvas_course_id course = courseId
    /\ course_tenant_id course = canvas_id canvas
    /\ course_name course = info_name info1
    /\ privacydashboard_url course = info_privacydashboard_url info1
    /\ getOrCreateCourse str_to_number canvasCourseId (Some canvas)
         (Some info2) w1
       = (Callback None (Some (updated_course course info2)), w2)
    /\ courses (db w2) = courses (db w) ++ [updated_course course info2]
    /\ filter (fun c => (canvas_course_id c =? courseId)
                        && (course_tenant_id c =? canvas_id canvas))
         (courses (db w2))
       = [updated_course course info2].
Proof.
  intros Hfaults Hid Hinfo1 Hinfo2 Hnew.
  set (course := mkCourse (next_id (map course_id (courses (db w))))
                   courseId (canvas_id canvas) (info_name info1)
                   (info_privacydashboard_url info1)).
  assert (Hfind : find_course courseId (canvas_id canvas)
                    (mkDB (tenants (db w)) (courses (db w) ++ [course])
                       (users (db w)) (credentials (db w)) (opt_outs (db w))
                       (credential_users (db w)) (statement_months (db w)))
                  = Some course).
  { unfold find_course. cbn [courses]. apply find_app_none; [exact Hnew|].
    subst course. cbn. now rewrite !Z.eqb_refl. }
  assert (Hupd : map (fun x => if course_id x =? course_id course
                               then updated_course course info2 else x)
                   (courses (db w) ++ [course])
                 = courses (db w) ++ [updated_course course info2]).
  { apply update_last_course. intros x Hx. subst course. cbn [course_id].
    apply next_id_fresh. now apply in_map. }
  eexists course, _, _.
  unfold getOrCreateCourse at 1. rewrite Hid, Hinfo1. run.
  rewrite Hfaults. unfold findOrCreate_course. rewrite Hnew. fold course.
  cbn [fst snd db faults trace logged].
  split; [reflexivity|].
  cbn [db courses].
  repeat (split; [reflexivity|]).
  unfold getOrCreateCourse. rewrite Hid, Hinfo2. run.
  unfold findOrCreate_course. rewrite Hfind. run.
  unfold update_course. cbn [courses tenants users credentials opt_outs
                             credential_users statement_months].
  rewrite Hupd.
  split; [reflexivity|]. cbn [db courses]. split; [reflexivity|].
  rewrite filter_app. unfold find_course in Hnew.
  rewrite (filter_find_none _ _ Hnew). cbn. now rewrite !Z.eqb_refl.
Qed.

(** The first call of [getOrCreateUser] with a new natural key creates the
    row; the second call finds it and answers it as it is stored: the name
    it is given is not written. *)
Lemma getOrCreateUser_twice (w : World) externalId ext tenantId t name1 name2 :
  faults w = [] ->
  joi_string_required "externalId" externalId = inr ext ->
  joi_number_required str_to_number "tenantId" tenantId = inr t ->
  find_user ext t (db w) = None ->
  exists user w1 w2,
    getOrCreateUser str_to_number externalId tenantId name1 w
      = (Callback None (Some user), w1)
    /\ users (db w1) = users (db w) ++ [user]
    /\ external_id user = ext
    /\ user_tenant_id user = t
    /\ user_name user = name1
    /\ getOrCreateUser str_to_number externalId tenantId name2 w1
       = (Callback None (Some user), w2)
    /\ db w2 = db w1.
Proof.
  intros Hfaults Hext Ht Hnew.
  set (user := mkUser (next_id (map user_id (users (db w)))) ext t name1).
  assert (Hfind : find_user ext t
                    (mkDB (tenants (db w)) (courses (db w))
                       (users (db w) ++ [user]) (credentials (db w))
                       (opt_outs (db w)) (credential_users (db w))
                       (statement_months (db w)))
                  = Some user).
  { unfold find_user. cbn [users]. apply find_app_none; [exact Hnew|].
    subst user. cbn. now rewrite String.eqb_refl, Z.eqb_refl. }
  eexists user, _, _.
  unfold getOrCreateUser at 1. rewrite Hext, Ht. run.
  rewrite Hfaults. unfold findOrCreate_user. rewrite Hnew. fold user.
  cbn [fst snd db faults trace logged].
  split; [reflexivity|]. cbn [db users].
  repeat (split; [reflexivity|]).
  unfold getOrCreateUser. rewrite Hext, Ht. run.
  unfold findOrCreate_user. rewrite Hfind. run.
  split; reflexivity.
Qed.

(** C3, amended. Two calls with the same, new natural key, the store
    answering each call: the first creates and persists the row; the second
    creates no other row. For a course the second call answers the row
    updated with the course info it is given; for a user it answers the row
    as the first call stored it. *)
Theorem getOrCreate_second_call (w : World)
    canvasCourseId courseId canvas info1 info2
    externalId ext tenantId t name1 name2 :
  faults w = [] ->
  joi_number_required str_to_number "canvasCourseId" canvasCourseId
    = inr courseId ->
  joi_course_info (Some info1) = None ->
  joi_course_info (Some info2) = None ->
  find_course courseId (canvas_id canvas) (db w) = None ->
  joi_string_required "externalId" externalId = inr ext ->
  joi_number_required str_to_number "tenantId" tenantId = inr t ->
  find_user ext t (db w) = None ->
  (exists course w1 w2,
    getOrCreateCourse str_to_number canvasCourseId (Some canvas) (Some info1) w
      = (Callback None (Some course), w1)
    /\ courses (db w1) = courses (db w) ++ [course]
    /\ canvas_course_id course = courseId
    /\ course_tenant_id course = canvas_id canvas
    /\ course_name course = info_name info1
    /\ privacydashboard_url course = info_privacydashboard_url info1
    /\ getOrCreateCourse str_to_number canvasCourseId (Some canvas)
         (Some info2) w1
       = (Callback None (Some (updated_course course info2)), w2)
    /\ courses (db w2) = courses (db w) ++ [updated_course course info2]
    /\ filter (fun c => (canvas_course_id c =? courseId)
                        && (course_tenant_id c =? canvas_id canvas))
         (courses (db w2))
       = [updated_course course info2])
  /\ (exists user w1 w2,
    getOrCreateUser str_to_number externalId tenantId name1 w
      = (Callback None (Some user), w1)
    /\ users (db w1) = users (db w) ++ [user]
    /\ external_id user = ext
    /\ user_tenant_id user = t
    /\ user_name user = name1
    /\ getOrCreateUser str_to_number externalId tenantId name2 w1
       = (Callback None (Some user), w2)
    /\ db w2 = db w1).
Proof.
  intros Hfaults Hid Hinfo1 Hinfo2 Hcourse Hext Ht Huser. split.
  - now apply getOrCreateCourse_twice.
  - now apply getOrCreateUser_twice.
Qed.

End GetOrCreate.

Lemma getOrCreate_second_call_witness :
  (exists course w1 w2,
    getOrCreateCourse (fun _ => None) (JNum 7) (Some (mkCanvas 1))
      (Some (mkCourseInfo (Some "Logic") None)) empty_world
      = (Callback None (Some course), w1)
    /\ courses (db w1) = courses (db empty_world) ++ [course]
    /\ canvas_course_id course = 7
    /\ course_tenant_id course = canvas_id (mkCanvas 1)
    /\ course_name course = info_name (mkCourseInfo (Some "Logic") None)
    /\ privacydashboard_url course
       = info_privacydashboard_url (mkCourseInfo (Some "Logic") None)
    /\ getOrCreateCourse (fun _ => None) (JNum 7) (Some (mkCanvas 1))
         (Some (mkCourseInfo (Some "Logic II") (Some "https://lrs/privacy"))) w1
       = (Callback None
            (Some (updated_course course
                     (mkCourseInfo (Some "Logic II")
                        (Some "https://lrs/privacy")))), w2)
    /\ courses (db w2)
       = courses (db empty_world)
         ++ [updated_course course
               (mkCourseInfo (Some "Logic II") (Some "https://lrs/privacy"))]
    /\ filter (fun c => (canvas_course_id c =? 7)
                        && (course_tenant_id c =? canvas_id (mkCanvas 1)))
         (courses (db w2))
       = [updated_course course
            (mkCourseInfo (Some "Logic II") (Some "https://lrs/privacy"))])
  /\ (exists user w1 w2,
    getOrCreateUser (fun _ => None) (JStr "jdoe") (JNum 1) (Some "Jane")
      empty_world
      = (Callback None (Some user), w1)
    /\ users (db w1) = users (db empty_world) ++ [user]
    /\ external_id user = "jdoe"
    /\ user_tenant_id user = 1
    /\ user_name user = Some "Jane"
    /\ getOrCreateUser (fun _ => None) (JStr "jdoe") (JNum 1) (Some "Jane Doe") w1
       = (Callback None (Some user), w2)
    /\ db w2 = db w1).
Proof.
  apply (getOrCreate_second_call (fun _ => None) empty_world
           (JNum 7) 7 (mkCanvas 1)
           (mkCourseInfo (Some "Logic") None)
           (mkCourseInfo (Some "Logic II") (Some "https://lrs/privacy"))
           (JStr "jdoe") "jdoe" (JNum 1) 1 (Some "Jane") (Some "Jane Doe"));
    reflexivity.
Defined.

(** C3 as it is stated fails for users: the second call of
    [getOrCreateUser] answers the stored row with the name of the first
    call, not the row updated with the name it is given. *)
Lemma getOrCreateUser_second_call_not_updated :
  let first :=
    getOrCreateUser (fun _ => None) (JStr "jdoe") (JNum 1) (Some "Jane")
      empty_world in
  let second :=
    getOrCreateUser (fun _ => None) (JStr "jdoe") (JNum 1) (Some "Jane Doe")
      (snd first) in
  fst first = Callback None (Some (mkUser 1 "jdoe" 1 (Some "Jane")))
  /\ fst second = Callback None (Some (mkUser 1 "jdoe" 1 (Some "Jane")))
  /\ fst second <> Callback None (Some (mkUser 1 "jdoe" 1 (Some "Jane Doe")))
  /\ users (db (snd second)) = [mkUser 1 "jdoe" 1 (Some "Jane")].
Proof.
  cbv zeta. repeat split; try reflexivity. vm_compute. discriminate.
Qed.

(** ** Opt-out requests *)

(** C4. A failing store call of [saveUserOptOut] does not reach the caller
    as a [{code: 500}] error. With [share = true] the failure of the delete
    is logged and the callback is called without an error; with
    [share = false] the failure of the find-or-create is wrapped by
    [getOrCreateOptOutDetails], and the callback that receives it throws a
    ReferenceError before it calls back. In both cases the tables are as
    they were. *)
Theorem saveUserOptOut_store_failure_not_surfaced
    (d : DB) (m : string) (rest : list (option string))
    (tr : list store_op) (lg : list (level * string))
    (auth : option Auth) (user : CtxUser) (credentialId : Z) :
  let w := mkWorld d (Some m :: rest) tr lg in
  let ctx := Some (mkCtx auth (Some user)) in
  let opt_in := saveUserOptOut ctx (mkDataUseRequest credentialId (JBool true)) w in
  let opt_out := saveUserOptOut ctx (mkDataUseRequest credentialId (JBool false)) w in
  (fst opt_in = Callback None None
   /\ trace (snd opt_in) = tr ++ [Destroy Opt_outs]
   /\ In (Error, m) (logged (snd opt_in))
   /\ db (snd opt_in) = d)
  /\ (fst (getOrCreateOptOutDetails ctx
             (mkDataUseRequest credentialId (JBool false)) w)
      = Callback (Some (mkError 500 m)) None
      /\ fst opt_out = Throws (ReferenceError "id is not defined")
      /\ trace (snd opt_out) = tr ++ [FindOrCreate Opt_outs]
      /\ db (snd opt_out) = d).
Proof.
  cbv zeta. unfold saveUserOptOut, getOrCreateOptOutDetails. run.
  repeat split; try reflexivity.
  apply in_or_app. right. now left.
Qed.

(** C8. A request whose [share] is neither [true] nor [false] changes no
    table, makes no store call, and calls back without an error. *)
Theorem saveUserOptOut_wrong_share (ctx : option Ctx) (credentialId : Z)
    (v : jsval) (w : World) :
  v <> JBool true -> v <> JBool false ->
  fst (saveUserOptOut ctx (mkDataUseRequest credentialId v) w)
    = Callback None None
  /\ db (snd (saveUserOptOut ctx (mkDataUseRequest credentialId v) w)) = db w
  /\ opt_outs (db (snd (saveUserOptOut ctx (mkDataUseRequest credentialId v) w)))
     = opt_outs (db w)
  /\ trace (snd (saveUserOptOut ctx (mkDataUseRequest credentialId v) w))
     = trace w.
Proof.
  intros Htrue Hfalse. unfold saveUserOptOut. cbn [request_share].
  destruct v as [| |[|]| | |]; try congruence; run; repeat split; reflexivity.
Qed.

Lemma saveUserOptOut_wrong_share_witness :
  fst (saveUserOptOut None (mkDataUseRequest 3 (JStr "false")) empty_world)
    = Callback None None
  /\ db (snd (saveUserOptOut None (mkDataUseRequest 3 (JStr "false"))
                empty_world)) = db empty_world
  /\ opt_outs (db (snd (saveUserOptOut None (mkDataUseRequest 3 (JStr "false"))
                          empty_world)))
     = opt_outs (db empty_world)
  /\ trace (snd (saveUserOptOut None (mkDataUseRequest 3 (JStr "false"))
                   empty_world))
     = trace empty_world.
Proof.
  apply (saveUserOptOut_wrong_share None 3 (JStr "false") empty_world);
    discriminate.
Defined.

(** Opting out twice leaves one row for the pair; opting in on a pair
    without a row deletes nothing and calls back without an error. *)
Example opt_out_twice :
  let ctx := Some (mkCtx None (Some (mkCtxUser 4 1))) in
  let request := mkDataUseRequest 9 (JBool false) in
  let once := saveUserOptOut ctx request empty_world in
  let twice := saveUserOptOut ctx request (snd once) in
  fst once = Callback None None
  /\ fst twice = Callback None None
  /\ opt_outs (db (snd twice)) = [mkOpt_out 4 9].
Proof. cbv zeta. repeat split; reflexivity. Qed.

Example opt_in_without_row :
  let ctx := Some (mkCtx None (Some (mkCtxUser 4 1))) in
  let answer := saveUserOptOut ctx (mkDataUseRequest 9 (JBool true)) empty_world in
  fst answer = Callback None None /\ db (snd answer) = empty_db.
Proof. cbv zeta. split; reflexivity. Qed.

(** ** Data uses *)

(** With a tenant id that is a non-zero number and a store that answers,
    [getDataUses] calls back with the selected credentials, mapped. *)
Lemma getDataUses_answer (auth : Auth) (user : option CtxUser) (tenantId : Z)
    (w : World) :
  auth_tenant_id auth = Some tenantId ->
  tenantId <> 0 ->
  hd None (faults w) = None ->
  fst (getDataUses (Some (mkCtx (Some auth) user)) w)
  = Callback None
      (Some (map data_use_of (findAll_credentials tenantId user (db w)))).
Proof.
  intros Hauth Hnz Hfault. unfold getDataUses. cbn [ctx_auth ctx_user].
  rewrite Hauth. destruct (Z.eqb_spec tenantId 0) as [|_]; [contradiction|].
  run. destruct (faults w) as [|[m|] rest]; try discriminate; reflexivity.
Qed.

Lemma data_use_ids (tenantId : Z) (user : option CtxUser) (d : DB) :
  map id (map data_use_of (findAll_credentials tenantId user d))
  = map credential_id (filter (data_use_where tenantId) (credentials d)).
Proof.
  unfold findAll_credentials. rewrite !map_map. reflexivity.
Qed.

(** In a table keyed by id, the rows with the id of [c] are [c] itself. *)
Lemma NoDup_id_unique (l : list Credential) :
  NoDup (map credential_id l) ->
  forall c c', In c l -> In c' l -> credential_id c = credential_id c' -> c = c'.
Proof.
  induction l as [|a l IH]; cbn [map In]; [tauto|].
  intros Hnd c c' Hc Hc' Hid. inversion Hnd as [|? ? Hnotin Hnd']; subst.
  destruct Hc as [<-|Hc], Hc' as [<-|Hc']; auto.
  - exfalso. apply Hnotin. rewrite Hid. now apply in_map.
  - exfalso. apply Hnotin. rewrite <- Hid. now apply in_map.
Qed.

(** C5. The credentials table being keyed by id, and the call answering
    (the tenant id of the context is a non-zero number and the store does not
    fail): a credential that does not share data and belongs to another
    tenant is not in the answer, and a credential without a tenant is,
    whatever the tenant of the caller. *)
Theorem getDataUses_visibility (auth : Auth) (user : option CtxUser)
    (tenantId : Z) (w : World) :
  auth_tenant_id auth = Some tenantId ->
  tenantId <> 0 ->
  hd None (faults w) = None ->
  NoDup (map credential_id (credentials (db w))) ->
  exists dataUses,
    fst (getDataUses (Some (mkCtx (Some auth) user)) w)
      = Callback None (Some dataUses)
    /\ (forall c t,
          In c (credentials (db w)) ->
          datashare c = false ->
          credential_tenant_id c = Some t -> t <> tenantId ->
          ~ In (credential_id c) (map id dataUses))
    /\ (forall c,
          In c (credentials (db w)) ->
          credential_tenant_id c = None ->
          exists dataUse,
            In dataUse dataUses
            /\ id dataUse = credential_id c
            /\ name dataUse = credential_name c
            /\ data_use_description dataUse = description c
            /\ data_use_anonymous dataUse = anonymous c).
Proof.
  intros Hauth Hnz Hfault Hkey.
  eexists. split; [apply getDataUses_answer; eassumption|]. split.
  - intros c t Hin Hshare Htenant Hother Hout.
    rewrite data_use_ids in Hout. apply in_map_iff in Hout.
    destruct Hout as [c' [Hid Hc']]. apply filter_In in Hc'.
    destruct Hc' as [Hin' Hwhere].
    assert (c' = c) by (apply (NoDup_id_unique _ Hkey); auto). subst c'.
    unfold data_use_where in Hwhere. rewrite Htenant, Hshare in Hwhere.
    now rewrite andb_false_r in Hwhere.
  - intros c Hin Htenant.
    exists (data_use_of
              (mkCredentialRow c (included_users tenantId user (db w) c))).
    split; [|repeat split; reflexivity].
    apply in_map. unfold findAll_credentials.
    apply (in_map (fun c0 => mkCredentialRow c0
                               (included_users tenantId user (db w) c0))).
    apply filter_In. split; [exact Hin|].
    unfold data_use_where. now rewrite Htenant.
Qed.

Lemma getDataUses_visibility_witness :
  exists dataUses,
    fst (getDataUses (Some (mkCtx (Some (mkAuth (Some 1))) None)) example_world)
      = Callback None (Some dataUses)
    /\ (forall c t,
          In c (credentials (db example_world)) ->
          datashare c = false ->
          credential_tenant_id c = Some t -> t <> 1 ->
          ~ In (credential_id c) (map id dataUses))
    /\ (forall c,
          In c (credentials (db example_world)) ->
          credential_tenant_id c = None ->
          exists dataUse,
            In dataUse dataUses
            /\ id dataUse = credential_id c
            /\ name dataUse = credential_name c
            /\ data_use_description dataUse = description c
            /\ data_use_anonymous dataUse = anonymous c).
Proof.
  apply (getDataUses_visibility (mkAuth (Some 1)) None 1 example_world).
  - reflexivity.
  - lia.
  - reflexivity.
  - cbn. repeat constructor; cbn; intuition lia.
Defined.

(** C6. A call of [getDataUses] without a current user includes no users in
    the query: every record of the list it answers has [share = true]. *)
Theorem getDataUses_no_user_share (auth : option Auth) (w : World)
    (err : option error) (dataUses : list DataUse) :
  fst (getDataUses (Some (mkCtx auth None)) w) = Callback err (Some dataUses) ->
  Forall (fun dataUse => share dataUse = true) dataUses.
Proof.
  unfold getDataUses. cbn [ctx_auth ctx_user].
  destruct auth as [[[tenantId|]]|]; run; try (intros H; discriminate H).
  destruct (tenantId =? 0); run; [intros H; discriminate H|].
  destruct (faults w) as [|[m|] rest]; run; try (intros H; discriminate H);
    intros [= _ <-]; apply Forall_forall; intros x Hx;
    apply in_map_iff in Hx; destruct Hx as [row [<- Hrow]];
    unfold findAll_credentials in Hrow; apply in_map_iff in Hrow;
    destruct Hrow as [c [<- _]]; reflexivity.
Qed.

Lemma getDataUses_no_user_share_witness :
  Forall (fun dataUse => share dataUse = true)
    [mkDataUse 1 "Dashboard" "Course dashboard" false true;
     mkDataUse 3 "Research" "Learning analytics research" true true].
Proof.
  apply (getDataUses_no_user_share (Some (mkAuth (Some 1))) example_world None).
  reflexivity.
Defined.

Lemma app_one_neq {A} (l : list A) (a : A) : l ++ [a] <> l.
Proof.
  intros H. apply (f_equal (@List.length A)) in H.
  rewrite length_app in H. cbn in H. lia.
Qed.

(** C9. A context without [auth] makes the guard of [getDataUses] throw: no
    callback, no store call. The guard answers its [{code: 500}] error,
    without a store call, exactly when the context is null or its
    [auth.tenant_id] is falsy. *)
Theorem getDataUses_guard :
  (forall user w,
     getDataUses (Some (mkCtx None user)) w
     = (Throws (TypeError "Cannot read property 'tenant_id' of undefined"), w))
  /\ (forall ctx w,
        (fst (getDataUses ctx w) = Callback (Some prevented_data_uses) None
         /\ trace (snd (getDataUses ctx w)) = trace w)
        <-> (ctx = None
             \/ exists c auth,
                  ctx = Some c /\ ctx_auth c = Some auth
                  /\ truthy (auth_tenant_id auth) = false)).
Proof.
  split; [reflexivity|].
  intros ctx w. unfold getDataUses.
  destruct ctx as [[auth user]|]; cbn [ctx_auth ctx_user].
  2:{ run. split; [now left | now split]. }
  destruct auth as [[tenant]|].
  2:{ run. split.
      - intros [H _]. discriminate.
      - intros [H | [c [a [Hc [H _]]]]]; [discriminate|].
        injection Hc as <-. discriminate. }
  cbn [auth_tenant_id]. destruct tenant as [tenantId|].
  2:{ run. split; [|now split].
      intros _. right. now exists (mkCtx (Some (mkAuth None)) user), (mkAuth None). }
  destruct (Z.eqb_spec tenantId 0) as [->|Hnz].
  - run. split; [|now split].
    intros _. right.
    now exists (mkCtx (Some (mkAuth (Some 0))) user), (mkAuth (Some 0)).
  - split.
    + intros [_ Htrace]. exfalso. revert Htrace. run.
      destruct (faults w) as [|[m|] rest]; cbn [fst snd trace];
        apply app_one_neq.
    + intros [H | [c [a [Hc [Ha Htruthy]]]]]; [discriminate|].
      injection Hc as <-. cbn in Ha. injection Ha as <-.
      cbn in Htruthy. apply negb_false_iff, Z.eqb_eq in Htruthy. contradiction.
Qed.

(** ** Tenants *)

(** A key that is present and is not such a string is refused with code
    400, and the world is as it was: no store call, no log. *)
Lemma getTenant_malformed_key (apiDomain ltiKey : jsval) (w : World) :
  ltiKey <> JUndefined ->
  lti_key_ok ltiKey = false ->
  exists message,
    getTenant apiDomain ltiKey w
    = (Callback (Some (mkError 400 message)) None, w).
Proof.
  intros Hdefined Hbad. unfold getTenant.
  destruct (joi_string_required "apiDomain" apiDomain) as [m|domain];
    [now exists m|].
  destruct ltiKey as [| | | |s|]; try contradiction;
    try (eexists; reflexivity).
  unfold joi_string_alphanum_length. destruct s as [|c s];
    [eexists; reflexivity|].
  unfold lti_key_ok in Hbad.
  destruct (forallb is_alphanum (list_ascii_of_string (String c s)));
    cbn [negb]; [|eexists; reflexivity].
  rewrite andb_true_r in Hbad. rewrite Hbad. eexists; reflexivity.
Qed.

(** C7. The schema does not require [ltiKey]: with an absent key and a
    valid domain the validation passes, the store is queried, and the
    answer is not the validation error. *)
Theorem getTenant_absent_key_reaches_store (c : ascii) (domain : string)
    (w : World) :
  let answer := getTenant (JStr (String c domain)) JUndefined w in
  lti_key_ok JUndefined = false
  /\ trace (snd answer) = trace w ++ [FindOne Tenants]
  /\ error_code (fst answer) <> Some 400.
Proof.
  cbv zeta. unfold getTenant. cbn [joi_string_required joi_string_alphanum_length].
  run. unfold find_tenant.
  destruct (faults w) as [|[m|] rest]; cbn; repeat split; discriminate.
Qed.

(** ** Users and courses that do not exist *)

(** C10. [getUserByExternalId] with a valid external id and tenant id that
    match no user, the store answering: the callback gets no error and no
    user. No call of [getUserByExternalId] answers a 404, whereas [getCourse]
    does for an id that no course has. *)
Theorem getUserByExternalId_absent (str_to_number : string -> option Z)
    (ext : string) (tenantId : jsval) (t : Z) (w : World) :
  ext <> "" ->
  to_number str_to_number tenantId = Some t ->
  find_user ext t (db w) = None ->
  hd None (faults w) = None ->
  fst (getUserByExternalId str_to_number (JStr ext) tenantId w)
    = Callback None None
  /\ (forall externalId' tenantId' w',
        error_code (fst (getUserByExternalId str_to_number
                           externalId' tenantId' w')) <> Some 404)
  /\ (forall id w',
        hd None (faults w') = None ->
        find (fun c => course_id c =? id) (courses (db w')) = None ->
        fst (getCourse id w')
        = Callback (Some (mkError 404 "Failed to retrieve the course")) None).
Proof.
  intros Hext Hnum Hnone Hfault. split; [|split].
  - unfold getUserByExternalId, joi_string_required, joi_number_required.
    destruct ext as [|c ext]; [contradiction|]. rewrite Hnum.
    destruct tenantId; try discriminate; run;
      destruct (faults w) as [|[m|] rest]; try discriminate;
      cbn [fst snd]; rewrite Hnone; reflexivity.
  - intros externalId' tenantId' w'. unfold getUserByExternalId.
    destruct (joi_string_required _ _) as [m|ext']; [cbn; discriminate|].
    destruct (joi_number_required _ _ _) as [m|t']; [cbn; discriminate|].
    run. destruct (faults w') as [|[m|] rest]; cbn [fst snd];
      try (cbn; discriminate);
      destruct (find_user ext' t' (db w')); cbn; discriminate.
  - intros id w' Hfault' Hnone'. unfold getCourse. run.
    destruct (faults w') as [|[m|] rest]; try discriminate;
      cbn [fst snd]; rewrite Hnone'; reflexivity.
Qed.

Lemma getUserByExternalId_absent_witness :
  fst (getUserByExternalId (fun _ => None) (JStr "jdoe") (JNum 1) empty_world)
    = Callback None None
  /\ (forall externalId' tenantId' w',
        error_code (fst (getUserByExternalId (fun _ => None)
                           externalId' tenantId' w')) <> Some 404)
  /\ (forall id w',
        hd None (faults w') = None ->
        find (fun c => course_id c =? id) (courses (db w')) = None ->
        fst (getCourse id w')
        = Callback (Some (mkError 404 "Failed to retrieve the course")) None).
Proof.
  apply (getUserByExternalId_absent (fun _ => None) "jdoe" (JNum 1) 1
           empty_world); [discriminate | reflexivity | reflexivity | reflexivity].
Defined.

(** ** The monthly totals of a user *)

(** With a current user and a store that answers rows in increasing order
    whose last month is not December, [getTotalActivities] calls back with
    the dense series: as many elements as there are calendar months from the
    first row to the last, each month once and in chronological order, and
    total 0 for a month without a row. *)
Lemma getTotalActivities_dense (now : string) (auth : option Auth)
    (user : CtxUser) (w : World) (first : MonthlySeries.Row)
    (rest : list MonthlySeries.Row) (fuel : nat) :
  let rows := first :: rest in
  let lastRow := last rows first in
  let months :=
    MonthlySeries.months_from (MonthlySeries.key first)
      (MonthlySeries.months_between (MonthlySeries.key first)
         (MonthlySeries.key lastRow)) in
  hd None (faults w) = None ->
  statement_months (db w) (ctx_user_id user) (ctx_user_tenant_id user) = rows ->
  Forall (fun r => MonthlySeries.calendar_month (MonthlySeries.key r)) rows ->
  MonthlySeries.strictly_increasing rows ->
  MonthlySeries.month lastRow <> 12 ->
  (List.length months <= fuel)%nat ->
  fst (getTotalActivities fuel now (Some (mkCtx auth (Some user))) w)
    = Some (Callback None
        (Some (map (fun ym => MonthlySeries.result_of rows now (fst ym) (snd ym))
                 months)))
  /\ List.length months
     = MonthlySeries.months_between (MonthlySeries.key first)
         (MonthlySeries.key lastRow)
  /\ NoDup months
  /\ MonthlySeries.chronological months
  /\ (forall ym,
        In ym months
        <-> MonthlySeries.calendar_month ym
            /\ MonthlySeries.month_index (MonthlySeries.key first)
               <= MonthlySeries.month_index ym
               <= MonthlySeries.month_index (MonthlySeries.key lastRow))
  /\ (forall ym,
        In ym months ->
        (forall r, In r rows -> MonthlySeries.key r <> ym) ->
        MonthlySeries.period_total
          (MonthlySeries.result_of rows now (fst ym) (snd ym)) = 0).
Proof.
  cbv zeta. intros Hfault Hrows Hcal Hinc Hdec Hfuel.
  rewrite months_from_length in Hfuel.
  assert (Hfirst : MonthlySeries.calendar_month (MonthlySeries.key first))
    by now inversion Hcal.
  assert (Hle := strictly_increasing_last rest first first Hcal Hinc).
  split; [|split; [|split; [|split; [|split]]]].
  - unfold getTotalActivities. run.
    destruct (faults w) as [|[m|] rest']; try discriminate;
      cbn [fst snd]; rewrite Hrows;
      rewrite (series_dense now first rest Hcal fuel Hinc Hdec Hfuel);
      reflexivity.
  - apply months_from_length.
  - now apply months_from_NoDup.
  - now apply months_from_chronological.
  - intros ym. rewrite (months_from_In _ _ ym Hfirst).
    unfold MonthlySeries.months_between. split; intros [H1 H2]; split; auto; lia.
  - intros [y m] _ Habsent. cbn [fst snd]. now apply result_of_absent.
Qed.

(** C1. The rows of November 2023 and December 2024 are in strictly
    increasing order and span 14 calendar months, so the series should have
    14 elements. [getTotalActivities] answers none: the loop runs past
    December 2024 whatever the number of iterations allowed. With a last row
    one month earlier, the same call answers the 13 months of the range. *)
Theorem getTotalActivities_december (fuel : nat) (now : string) :
  let rows := [MonthlySeries.mkRow 2023 11 5; MonthlySeries.mkRow 2024 12 3] in
  let rows' := [MonthlySeries.mkRow 2023 11 5; MonthlySeries.mkRow 2024 11 3] in
  let world r := mkWorld (mkDB [] [] [] [] [] (fun _ => []) (fun _ _ => r))
                   [] [] [] in
  let ctx := Some (mkCtx None (Some (mkCtxUser 1 1))) in
  MonthlySeries.strictly_increasing rows
  /\ MonthlySeries.months_between (2023, 11) (2024, 12) = 14%nat
  /\ fst (getTotalActivities fuel now ctx (world rows)) = None
  /\ exists totalActivities,
       fst (getTotalActivities 13 now ctx (world rows'))
         = Some (Callback None (Some totalActivities))
       /\ List.length totalActivities = 13%nat.
Proof.
  cbv zeta. split; [|split; [reflexivity|split]].
  - cbn. unfold MonthlySeries.key_lt. cbn. lia.
  - unfold getTotalActivities. run. cbn [statement_months].
    change (MonthlySeries.series fuel now
              [MonthlySeries.mkRow 2023 11 5; MonthlySeries.mkRow 2024 12 3])
      with (MonthlySeries.fill_months fuel
              [MonthlySeries.mkRow 2023 11 5; MonthlySeries.mkRow 2024 12 3]
              now 2024 13 2023 11 []).
    rewrite fill_months_december; [reflexivity | lia].
  - eexists. split.
    + unfold getTotalActivities. run. cbn. reflexivity.
    + reflexivity.
Qed.

(** * Further properties *)

(** ** The series and its rows *)

Section SeriesAndRows.
Import MonthlySeries.

Lemma increasing_above (l : list Row) :
  forall a,
    Forall (fun r => calendar_month (key r)) (a :: l) ->
    strictly_increasing (a :: l) ->
    forall r, In r l -> month_index (key a) < month_index (key r).
Proof.
  induction l as [|b l IH]; intros a Hcal Hinc r Hr; [destruct Hr|].
  destruct Hinc as [Hlt Hinc].
  inversion Hcal as [|? ? Ha Hrest]; subst.
  assert (Hab : month_index (key a) < month_index (key b)).
  { apply key_lt_index; auto. now inversion Hrest. }
  destruct Hr as [<-|Hr]; [exact Hab|].
  specialize (IH b Hrest Hinc r Hr). lia.
Qed.

Lemma increasing_tail (a : Row) (l : list Row) :
  strictly_increasing (a :: l) -> strictly_increasing l.
Proof.
  destruct l as [|b l]; [intros; exact I | intros [_ H]; exact H].
Qed.

(** Rows in strictly increasing order carry each (year, month) once. *)
Lemma increasing_keys_NoDup (l : list Row) :
  Forall (fun r => calendar_month (key r)) l ->
  strictly_increasing l ->
  NoDup (map key l).
Proof.
  induction l as [|a l IH]; intros Hcal Hinc; cbn [map]; constructor.
  - intros Hin. apply in_map_iff in Hin. destruct Hin as [r [Hkey Hr]].
    pose proof (increasing_above l a Hcal Hinc r Hr) as Hlt.
    rewrite Hkey in Hlt. lia.
  - apply IH; [now inversion Hcal | now apply increasing_tail with a].
Qed.

Lemma increasing_below_last (l : list Row) :
  forall a d,
    Forall (fun r => calendar_month (key r)) (a :: l) ->
    strictly_increasing (a :: l) ->
    forall r, In r (a :: l) ->
      month_index (key r) <= month_index (key (last (a :: l) d)).
Proof.
  induction l as [|b l IH]; intros a d Hcal Hinc r Hr.
  - destruct Hr as [<-|[]]. cbn. lia.
  - change (last (a :: b :: l) d) with (last (b :: l) d).
    assert (Hrest : Forall (fun r => calendar_month (key r)) (b :: l))
      by now inversion Hcal.
    pose proof (increasing_tail _ _ Hinc) as Hinc'.
    destruct Hr as [<-|Hr]; [|now apply IH].
    pose proof (increasing_above _ _ Hcal Hinc b (or_introl eq_refl)).
    pose proof (IH b d Hrest Hinc' b (or_introl eq_refl)). lia.
Qed.

Lemma total_at_result (rows : list Row) (now : string) (ym : Z * Z) :
  period_total (result_of rows now (fst ym) (snd ym)) = total_at rows ym.
Proof. reflexivity. Qed.

Lemma total_at_cons (a : Row) (rows : list Row) (ym : Z * Z) :
  total_at (a :: rows) ym
  = if (year a =? fst ym) && (month a =? snd ym) then total a
    else total_at rows ym.
Proof.
  unfold total_at, find_month. cbn [find].
  destruct ((year a =? fst ym) && (month a =? snd ym)); reflexivity.
Qed.

Lemma total_at_absent (rows : list Row) (ym : Z * Z) :
  ~ In ym (map key rows) -> total_at rows ym = 0.
Proof.
  intros Hnot. destruct ym as [y m].
  change (period_total (result_of rows "" y m) = 0). apply result_of_absent.
  intros r Hr Hkey. apply Hnot. rewrite <- Hkey. now apply in_map.
Qed.

Lemma key_eqb (a : Row) (ym : Z * Z) :
  (year a =? fst ym) && (month a =? snd ym) = true <-> key a = ym.
Proof.
  destruct ym as [y m]. unfold key. cbn [fst snd].
  rewrite andb_true_iff, !Z.eqb_eq. split.
  - intros [-> ->]. reflexivity.
  - intros [= -> ->]. auto.
Qed.

(** Changing a function at one point of a duplicate-free list changes the
    sum by the difference at that point. *)
Lemma sum_Z_at_point (a : Row) (v : Z) (f : Z * Z -> Z) (months : list (Z * Z)) :
  NoDup months ->
  In (key a) months ->
  sum_Z (map (fun ym => if (year a =? fst ym) && (month a =? snd ym)
                        then v else f ym) months)
  = sum_Z (map f months) + v - f (key a).
Proof.
  induction months as [|x ms IH]; intros Hnd Hin; [destruct Hin|].
  inversion Hnd as [|? ? Hx Hms]; subst. cbn [map sum_Z fold_right].
  fold (sum_Z (map f ms)).
  fold (sum_Z (map (fun ym => if (year a =? fst ym) && (month a =? snd ym)
                              then v else f ym) ms)).
  destruct ((year a =? fst x) && (month a =? snd x)) eqn:E.
  - apply key_eqb in E. subst x.
    rewrite (map_ext_in _ f ms); [lia|].
    intros y Hy.
    destruct ((year a =? fst y) && (month a =? snd y)) eqn:E'; [|reflexivity].
    apply key_eqb in E'. subst y. contradiction.
  - destruct Hin as [Hin|Hin].
    + symmetry in Hin. apply key_eqb in Hin. congruence.
    + rewrite (IH Hms Hin). lia.
Qed.

(** Rows with distinct keys, all among the months: the totals read over
    the months add up to the totals of the rows. *)
Lemma sum_total_at (months : list (Z * Z)) (rows : list Row) :
  NoDup months ->
  NoDup (map key rows) ->
  (forall r, In r rows -> In (key r) months) ->
  sum_Z (map (total_at rows) months) = sum_Z (map total rows).
Proof.
  intros Hmonths. induction rows as [|a rows IH]; intros Hkeys Hin.
  - clear. induction months as [|x ms IHm]; [reflexivity|].
    cbn [map sum_Z fold_right] in *. unfold sum_Z in IHm. rewrite IHm.
    reflexivity.
  - inversion Hkeys as [|? ? Ha Hrest]; subst.
    rewrite (map_ext _ _ (total_at_cons a rows)).
    rewrite (sum_Z_at_point a (total a) (total_at rows) months Hmonths
               (Hin a (or_introl eq_refl))).
    rewrite (total_at_absent rows (key a) Ha).
    rewrite IH; [cbn [map sum_Z fold_right]; fold (sum_Z (map total rows)); lia
                | exact Hrest | intros r Hr; apply Hin; now right].
Qed.

Lemma NoDup_map_In_eq {A B} (f : A -> B) (l : list A) :
  NoDup (map f l) ->
  forall a b, In a l -> In b l -> f a = f b -> a = b.
Proof.
  induction l as [|x l IH]; cbn [map In]; [tauto|].
  intros Hnd a b Ha Hb Hf. inversion Hnd as [|? ? Hx Hl]; subst.
  destruct Ha as [<-|Ha], Hb as [<-|Hb]; auto.
  - exfalso. apply Hx. rewrite Hf. now apply in_map.
  - exfalso. apply Hx. rewrite <- Hf. now apply in_map.
Qed.

Variables (now : string) (first : Row) (rest : list Row) (fuel : nat).

Let rows := first :: rest.
Let lastRow := last rows first.
Let months :=
  months_from (key first) (months_between (key first) (key lastRow)).

Hypothesis rows_calendar : Forall (fun r => calendar_month (key r)) rows.
Hypothesis rows_increasing : strictly_increasing rows.
Hypothesis not_december : month lastRow <> 12.
Hypothesis enough_fuel :
  (months_between (key first) (key lastRow) <= fuel)%nat.

Lemma rows_in_months (r : Row) : In r rows -> In (key r) months.
Proof.
  intros Hr.
  assert (Hfirst : calendar_month (key first)) by now inversion rows_calendar.
  apply months_from_In; [exact Hfirst|]. split.
  - exact (proj1 (Forall_forall _ _) rows_calendar r Hr).
  - pose proof (increasing_below_last rest first first rows_calendar
                  rows_increasing r Hr) as Hup.
    fold rows in Hup. fold lastRow in Hup. unfold months_between.
    destruct Hr as [<-|Hr]; [lia|].
    pose proof (increasing_above rest first rows_calendar rows_increasing r Hr).
    lia.
Qed.

(** The loop loses and invents no activity: with rows in strictly increasing
    order whose last month is not December, the totals of the series add up
    to the totals of the rows. *)
Theorem series_keeps_totals :
  exists totalActivities,
    series fuel now rows = Some totalActivities
    /\ sum_Z (map period_total totalActivities) = sum_Z (map total rows).
Proof.
  eexists. split.
  - exact (series_dense now first rest rows_calendar fuel rows_increasing
             not_december enough_fuel).
  - fold rows lastRow months. rewrite map_map.
    rewrite (map_ext _ (total_at rows)) by reflexivity.
    apply sum_total_at.
    + apply months_from_NoDup. now inversion rows_calendar.
    + now apply increasing_keys_NoDup.
    + exact rows_in_months.
Qed.


End SeriesAndRows.

Lemma series_keeps_totals_witness :
  exists totalActivities,
    MonthlySeries.series 4 "January 2024"
      [MonthlySeries.mkRow 2023 11 5; MonthlySeries.mkRow 2024 2 3]
    = Some totalActivities
    /\ sum_Z (map MonthlySeries.period_total totalActivities)
       = sum_Z (map MonthlySeries.total
                  [MonthlySeries.mkRow 2023 11 5; MonthlySeries.mkRow 2024 2 3]).
Proof.
  apply (series_keeps_totals "January 2024" (MonthlySeries.mkRow 2023 11 5)
           [MonthlySeries.mkRow 2024 2 3] 4).
  - repeat constructor; cbn; lia.
  - cbn. unfold MonthlySeries.key_lt. cbn. lia.
  - cbn. lia.
  - vm_compute. lia.
Defined.


(** ** The opt-out record of a user *)

Lemma NoDup_map_snoc {A B} (f : A -> B) (l : list A) (a : A) :
  NoDup (map f l) -> ~ In (f a) (map f l) -> NoDup (map f (l ++ [a])).
Proof.
  induction l as [|x l IH]; cbn [map app In]; intros Hnd Hnot.
  - constructor; [tauto | constructor].
  - inversion Hnd as [|? ? Hx Hl]; subst. constructor.
    + rewrite map_app, in_app_iff. cbn [map In]. intuition congruence.
    + apply IH; tauto.
Qed.

Lemma NoDup_map_filter {K R} (key : R -> K) (keep : R -> bool) (rows : list R) :
  NoDup (map key rows) -> NoDup (map key (filter keep rows)).
Proof.
  intros Hnd. induction rows as [|x rows IH]; cbn [map filter]; [constructor|].
  cbn [map] in Hnd. inversion Hnd as [|? ? Hx Hrows]; subst.
  destruct (keep x); cbn [map]; [constructor|]; auto.
  intros Hin. apply Hx. apply in_map_iff in Hin.
  destruct Hin as [y [Hy Hin]]. apply filter_In in Hin.
  rewrite <- Hy. apply in_map. tauto.
Qed.



Lemma opt_out_matches_eq (userId credentialId : Z) (o : Opt_out) :
  opt_out_matches userId credentialId o = true ->
  o = mkOpt_out userId credentialId.
Proof.
  unfold opt_out_matches. destruct o as [u c]. cbn.
  rewrite andb_true_iff, !Z.eqb_eq. now intros [-> ->].
Qed.


Lemma findOrCreate_opt_out_matches (userId credentialId : Z) (d : DB) :
  findOrCreate_opt_out userId credentialId d
  = match find (opt_out_matches userId credentialId) (opt_outs d) with
    | Some o => ((o, false), d)
    | None =>
        ((mkOpt_out userId credentialId, true),
         mkDB (tenants d) (courses d) (users d) (credentials d)
              (opt_outs d ++ [mkOpt_out userId credentialId])
              (credential_users d) (statement_months d))
    end.
Proof. reflexivity. Qed.

Lemma find_opt_out_matches (userId credentialId : Z) (d : DB) :
  find_opt_out userId credentialId d
  = find (opt_out_matches userId credentialId) (opt_outs d).
Proof. reflexivity. Qed.

Lemma destroy_opt_out_matches (userId credentialId : Z) (d : DB) :
  destroy_opt_out userId credentialId d
  = (Z.of_nat (List.length (filter (opt_out_matches userId credentialId)
                              (opt_outs d))),
     mkDB (tenants d) (courses d) (users d) (credentials d)
          (filter (fun o => negb (opt_out_matches userId credentialId o))
             (opt_outs d))
          (credential_users d) (statement_months d)).
Proof. reflexivity. Qed.

Section OptOuts.

Variables (auth : option Auth) (user : CtxUser) (credentialId : Z).

Let ctx := Some (mkCtx auth (Some user)).
Let opt_out := mkDataUseRequest credentialId (JBool false).
Let opt_in := mkDataUseRequest credentialId (JBool true).
Let mine := opt_out_matches (ctx_user_id user) credentialId.

Lemma saveUserOptOut_false_answered (w : World) :
  faults w = [] ->
  fst (saveUserOptOut ctx opt_out w) = Callback None None
  /\ db (snd (saveUserOptOut ctx opt_out w))
     = snd (findOrCreate_opt_out (ctx_user_id user) credentialId (db w))
  /\ faults (snd (saveUserOptOut ctx opt_out w)) = [].
Proof.
  intros Hfaults. subst ctx opt_out.
  unfold saveUserOptOut, getOrCreateOptOutDetails. run. rewrite Hfaults.
  destruct (findOrCreate_opt_out (ctx_user_id user) credentialId (db w))
    as [[o created] d].
  run. repeat split; reflexivity.
Qed.


Lemma isStudentOptedOut_answered (userId consumerCredentialId : Z) (w : World) :
  hd None (faults w) = None ->
  fst (isStudentOptedOut userId consumerCredentialId w)
  = Callback None (find_opt_out userId consumerCredentialId (db w)).
Proof.
  intros Hfaults. unfold isStudentOptedOut. run.
  destruct (faults w) as [|[m|] rest]; try discriminate; reflexivity.
Qed.

(** Opting out, the store answering: the callback gets no error,
    [isStudentOptedOut] then answers the row of the pair, the pair has one
    row if it had none and as many as before otherwise, the rows of the
    other pairs are as they were, and opting out again changes nothing. *)
Theorem opt_out_recorded (w : World) :
  faults w = [] ->
  fst (saveUserOptOut ctx opt_out w) = Callback None None
  /\ fst (isStudentOptedOut (ctx_user_id user) credentialId
            (snd (saveUserOptOut ctx opt_out w)))
     = Callback None (Some (mkOpt_out (ctx_user_id user) credentialId))
  /\ List.length (filter mine (opt_outs (db (snd (saveUserOptOut ctx opt_out w)))))
     = Nat.max 1 (List.length (filter mine (opt_outs (db w))))
  /\ filter (fun o => negb (mine o))
       (opt_outs (db (snd (saveUserOptOut ctx opt_out w))))
     = filter (fun o => negb (mine o)) (opt_outs (db w))
  /\ db (snd (saveUserOptOut ctx opt_out
                (snd (saveUserOptOut ctx opt_out w))))
     = db (snd (saveUserOptOut ctx opt_out w)).
Proof.
  intros Hfaults.
  destruct (saveUserOptOut_false_answered w Hfaults) as [Hcb [Hdb Hf]].
  destruct (saveUserOptOut_false_answered _ Hf) as [_ [Hdb' _]].
  rewrite isStudentOptedOut_answered by now rewrite Hf.
  rewrite Hdb', Hdb. clear Hdb' Hdb Hf. subst mine.
  rewrite !findOrCreate_opt_out_matches, !find_opt_out_matches.
  assert (Hnew : opt_out_matches (ctx_user_id user) credentialId
                   (mkOpt_out (ctx_user_id user) credentialId) = true).
  { unfold opt_out_matches. cbn. now rewrite !Z.eqb_refl. }
  destruct (find (opt_out_matches (ctx_user_id user) credentialId)
              (opt_outs (db w))) as [o|] eqn:E; cbn [snd opt_outs].
  - rewrite ?E. cbn [snd].
    pose proof (find_some _ _ E) as [Hin Hm].
    rewrite (opt_out_matches_eq _ _ _ Hm) at 1.
    repeat split; try reflexivity; try assumption.
    assert (In o (filter (opt_out_matches (ctx_user_id user) credentialId)
                    (opt_outs (db w)))) by (apply filter_In; tauto).
    destruct (filter _ (opt_outs (db w))) as [|x l]; [contradiction|].
    cbn [List.length]. lia.
  - rewrite (find_app_none _ _ _ E Hnew). cbn [snd opt_outs].
    rewrite !filter_app. cbn [filter]. rewrite Hnew. cbn [negb].
    rewrite (filter_find_none _ _ E), app_nil_r.
    repeat split; try reflexivity; assumption.
Qed.



End OptOuts.

(** Whatever the request and the answers of the store, the tables after
    [saveUserOptOut] are those before, or those of the find-or-create, or
    those of the delete. *)
Lemma saveUserOptOut_db (ctx : option Ctx) (request : DataUseRequest) (w : World) :
  db (snd (saveUserOptOut ctx request w)) = db w
  \/ (exists userId,
        db (snd (saveUserOptOut ctx request w))
        = snd (findOrCreate_opt_out userId (request_id request) (db w)))
  \/ (exists userId,
        db (snd (saveUserOptOut ctx request w))
        = snd (destroy_opt_out userId (request_id request) (db w))).
Proof.
  unfold saveUserOptOut, getOrCreateOptOutDetails.
  destruct request as [rid [| |[|]| | |]]; run; auto;
    destruct ctx as [[a [u|]]|]; run; auto;
    destruct (faults w) as [|[m|] rest]; run; auto.
  - right. right. exists (ctx_user_id u). rewrite destroy_opt_out_matches. run.
    destruct (Z.of_nat _ =? 1); reflexivity.
  - right. right. exists (ctx_user_id u). rewrite destroy_opt_out_matches. run.
    destruct (Z.of_nat _ =? 1); reflexivity.
  - right. left. exists (ctx_user_id u).
    destruct (findOrCreate_opt_out (ctx_user_id u) rid (db w)) as [[o b] d].
    reflexivity.
  - right. left. exists (ctx_user_id u).
    destruct (findOrCreate_opt_out (ctx_user_id u) rid (db w)) as [[o b] d].
    reflexivity.
Qed.

(** At most one row per (user, credential) pair: [saveUserOptOut] keeps the
    invariant, for every context, request and answer of the store. *)
Theorem saveUserOptOut_one_row_per_pair (ctx : option Ctx)
    (request : DataUseRequest) (w : World) :
  NoDup (map opt_out_key (opt_outs (db w))) ->
  NoDup (map opt_out_key (opt_outs (db (snd (saveUserOptOut ctx request w))))).
Proof.
  intros Hnd.
  destruct (saveUserOptOut_db ctx request w) as [-> | [[u ->] | [u ->]]].
  - exact Hnd.
  - rewrite findOrCreate_opt_out_matches.
    destruct (find _ (opt_outs (db w))) eqn:E; cbn [snd opt_outs]; [exact Hnd|].
    apply NoDup_map_snoc; [exact Hnd|].
    intros Hin. apply in_map_iff in Hin. destruct Hin as [o [Hkey Ho]].
    pose proof (find_none _ _ E o Ho) as Hno.
    unfold opt_out_key in Hkey. cbn in Hkey. injection Hkey as Hu Hc.
    unfold opt_out_matches in Hno. now rewrite Hu, Hc, !Z.eqb_refl in Hno.
  - rewrite destroy_opt_out_matches. cbn [snd opt_outs].
    now apply NoDup_map_filter.
Qed.

Lemma saveUserOptOut_one_row_per_pair_witness :
  NoDup (map opt_out_key
           (opt_outs (db (snd (saveUserOptOut
                                 (Some (mkCtx None (Some (mkCtxUser 4 1))))
                                 (mkDataUseRequest 9 (JBool false))
                                 empty_world))))).
Proof.
  apply (saveUserOptOut_one_row_per_pair
           (Some (mkCtx None (Some (mkCtxUser 4 1))))
           (mkDataUseRequest 9 (JBool false)) empty_world).
  constructor.
Defined.

Lemma opt_out_recorded_witness :
  fst (saveUserOptOut (Some (mkCtx None (Some (mkCtxUser 4 1))))
         (mkDataUseRequest 9 (JBool false)) empty_world)
    = Callback None None
  /\ fst (isStudentOptedOut 4 9
            (snd (saveUserOptOut (Some (mkCtx None (Some (mkCtxUser 4 1))))
                    (mkDataUseRequest 9 (JBool false)) empty_world)))
     = Callback None (Some (mkOpt_out 4 9)).
Proof.
  pose proof (opt_out_recorded None (mkCtxUser 4 1) 9 empty_world eq_refl)
    as [H1 [H2 _]].
  split; [exact H1 | exact H2].
Defined.



(** [isStudentOptedOut] answers the row of the pair, or no row, when the
    store answers; when the store fails, the callback of the query throws a
    ReferenceError, and in no case does the caller get an error object. *)
Theorem isStudentOptedOut_outcomes (userId consumerCredentialId : Z) (w : World) :
  match hd None (faults w) with
  | None =>
      fst (isStudentOptedOut userId consumerCredentialId w)
      = Callback None (find_opt_out userId consumerCredentialId (db w))
  | Some _ =>
      fst (isStudentOptedOut userId consumerCredentialId w)
      = Throws (ReferenceError "externalId is not defined")
  end
  /\ error_code (fst (isStudentOptedOut userId consumerCredentialId w)) = None
  /\ db (snd (isStudentOptedOut userId consumerCredentialId w)) = db w.
Proof.
  unfold isStudentOptedOut. run.
  destruct (faults w) as [|[m|] rest]; cbn; repeat split; reflexivity.
Qed.

(** ** Users *)

Section Users.

Variable str_to_number : string -> option Z.

Lemma getOrCreateUser_answered (w : World) externalId ext tenantId t name :
  faults w = [] ->
  joi_string_required "externalId" externalId = inr ext ->
  joi_number_required str_to_number "tenantId" tenantId = inr t ->
  fst (getOrCreateUser str_to_number externalId tenantId name w)
    = Callback None (Some (fst (fst (findOrCreate_user ext t name (db w)))))
  /\ db (snd (getOrCreateUser str_to_number externalId tenantId name w))
     = snd (findOrCreate_user ext t name (db w))
  /\ faults (snd (getOrCreateUser str_to_number externalId tenantId name w)) = [].
Proof.
  intros Hfaults Hext Ht. unfold getOrCreateUser. rewrite Hext, Ht. run.
  rewrite Hfaults.
  destruct (findOrCreate_user ext t name (db w)) as [[u [|]] d]; run;
    repeat split; reflexivity.
Qed.

Lemma find_user_key (ext : string) (t : Z) (d : DB) (u : User) :
  find_user ext t d = Some u -> In u (users d) /\ user_key u = (ext, t).
Proof.
  unfold find_user. intros H. apply find_some in H. destruct H as [Hin Hk].
  apply andb_true_iff in Hk. destruct Hk as [He Ht].
  apply String.eqb_eq in He. apply Z.eqb_eq in Ht.
  split; [exact Hin|]. unfold user_key. congruence.
Qed.

Lemma find_user_none_key (ext : string) (t : Z) (d : DB) :
  find_user ext t d = None -> ~ In (ext, t) (map user_key (users d)).
Proof.
  unfold find_user. intros H Hin. apply in_map_iff in Hin.
  destruct Hin as [u [Hkey Hu]]. pose proof (find_none _ _ H u Hu) as Hno.
  unfold user_key in Hkey. injection Hkey as He Ht.
  cbv beta in Hno. now rewrite He, Ht, String.eqb_refl, Z.eqb_refl in Hno.
Qed.

(** After [getOrCreateUser], [getUserByExternalId] with the same key answers
    the same user: the row that was found, or the row that was created with
    the name given. *)
Theorem getOrCreateUser_then_found (w : World) externalId ext tenantId t name :
  faults w = [] ->
  joi_string_required "externalId" externalId = inr ext ->
  joi_number_required str_to_number "tenantId" tenantId = inr t ->
  exists user,
    fst (getOrCreateUser str_to_number externalId tenantId name w)
      = Callback None (Some user)
    /\ user_key user = (ext, t)
    /\ (find_user ext t (db w) = None -> user_name user = name)
    /\ (forall existing, find_user ext t (db w) = Some existing -> user = existing)
    /\ fst (getUserByExternalId str_to_number externalId tenantId
              (snd (getOrCreateUser str_to_number externalId tenantId name w)))
       = Callback None (Some (user, tenant_of t (db w))).
Proof.
  intros Hfaults Hext Ht.
  destruct (getOrCreateUser_answered w externalId ext tenantId t name
              Hfaults Hext Ht) as [Hcb [Hdb Hf]].
  eexists. split; [exact Hcb|].
  unfold getUserByExternalId. rewrite Hext, Ht. run. rewrite Hf, Hdb.
  unfold findOrCreate_user.
  destruct (find_user ext t (db w)) as [u|] eqn:E; cbn [fst snd].
  - destruct (find_user_key _ _ _ _ E) as [_ Hkey].
    rewrite E. run.
    assert (Htenant : user_tenant_id u = t) by (unfold user_key in Hkey; congruence).
    rewrite Htenant.
    repeat split; try reflexivity; try exact Hkey; try discriminate.
    now intros existing [= <-].
  - assert (Hfind : find_user ext t
                      (mkDB (tenants (db w)) (courses (db w))
                         (users (db w)
                          ++ [mkUser (next_id (map user_id (users (db w))))
                                ext t name])
                         (credentials (db w)) (opt_outs (db w))
                         (credential_users (db w)) (statement_months (db w)))
                    = Some (mkUser (next_id (map user_id (users (db w))))
                              ext t name)).
    { unfold find_user. cbn [users]. apply find_app_none; [exact E|].
      cbn. now rewrite String.eqb_refl, Z.eqb_refl. }
    rewrite Hfind. run.
    repeat split; try reflexivity; discriminate.
Qed.

(** [getOrCreateUser] keeps the users table keyed: ids and natural keys
    stay without duplicates, the rows it finds are kept as they are, and at
    most one row is added. This holds for every argument and answer of the
    store. *)
Theorem getOrCreateUser_keeps_keys (w : World) externalId tenantId name :
  NoDup (map user_id (users (db w))) ->
  NoDup (map user_key (users (db w))) ->
  let after := db (snd (getOrCreateUser str_to_number externalId tenantId name w)) in
  NoDup (map user_id (users after))
  /\ NoDup (map user_key (users after))
  /\ exists added,
       users after = users (db w) ++ added /\ (List.length added <= 1)%nat.
Proof.
  intros Hids Hkeys. cbv zeta. unfold getOrCreateUser.
  assert (Hsame : NoDup (map user_id (users (db w)))
                  /\ NoDup (map user_key (users (db w)))
                  /\ exists added,
                       users (db w) = users (db w) ++ added
                       /\ (List.length added <= 1)%nat).
  { repeat split; auto. exists []. rewrite app_nil_r. split; [reflexivity|cbn; lia]. }
  destruct (joi_string_required _ _) as [m|ext]; [exact Hsame|].
  destruct (joi_number_required _ _ _) as [m|t]; [exact Hsame|].
  run.
  assert (Hrun : let d := snd (findOrCreate_user ext t name (db w)) in
                 NoDup (map user_id (users d))
                 /\ NoDup (map user_key (users d))
                 /\ exists added,
                      users d = users (db w) ++ added
                      /\ (List.length added <= 1)%nat).
  { cbv zeta. unfold findOrCreate_user.
    destruct (find_user ext t (db w)) eqn:E; cbn [snd users]; [exact Hsame|].
    split; [|split].
    - apply NoDup_map_snoc; [exact Hids|]. cbn [user_id]. intros Hin.
      pose proof (next_id_fresh _ _ Hin). lia.
    - apply NoDup_map_snoc; [exact Hkeys|]. now apply find_user_none_key.
    - eexists. split; [reflexivity | cbn; lia]. }
  cbv zeta in Hrun.
  destruct (faults w) as [|[m|] rest]; run; try exact Hsame;
    destruct (findOrCreate_user ext t name (db w)) as [[u [|]] d]; run;
    exact Hrun.
Qed.

End Users.

Lemma getOrCreateUser_then_found_witness :
  exists user,
    fst (getOrCreateUser (fun _ => None) (JStr "jdoe") (JNum 1) (Some "Jane")
           empty_world)
      = Callback None (Some user)
    /\ user_key user = ("jdoe", 1)
    /\ (find_user "jdoe" 1 (db empty_world) = None -> user_name user = Some "Jane")
    /\ (forall existing,
          find_user "jdoe" 1 (db empty_world) = Some existing -> user = existing)
    /\ fst (getUserByExternalId (fun _ => None) (JStr "jdoe") (JNum 1)
              (snd (getOrCreateUser (fun _ => None) (JStr "jdoe") (JNum 1)
                      (Some "Jane") empty_world)))
       = Callback None (Some (user, tenant_of 1 (db empty_world))).
Proof.
  apply (getOrCreateUser_then_found (fun _ => None) empty_world
           (JStr "jdoe") "jdoe" (JNum 1) 1 (Some "Jane")); reflexivity.
Defined.

Lemma getOrCreateUser_keeps_keys_witness :
  NoDup (map user_id
           (users (db (snd (getOrCreateUser (fun _ => None) (JStr "jdoe")
                              (JNum 1) (Some "Jane") empty_world)))))
  /\ NoDup (map user_key
              (users (db (snd (getOrCreateUser (fun _ => None) (JStr "jdoe")
                                 (JNum 1) (Some "Jane") empty_world)))))
  /\ exists added,
       users (db (snd (getOrCreateUser (fun _ => None) (JStr "jdoe")
                         (JNum 1) (Some "Jane") empty_world)))
       = users (db empty_world) ++ added /\ (List.length added <= 1)%nat.
Proof.
  apply (getOrCreateUser_keeps_keys (fun _ => None) empty_world
           (JStr "jdoe") (JNum 1) (Some "Jane")); constructor.
Defined.

(** ** Courses *)

Lemma find_replaced {A} (p same : A -> bool) (c c' : A) (l : list A) :
  find p l = Some c -> same c = true -> p c' = true ->
  find p (map (fun x => if same x then c' else x) l) = Some c'.
Proof.
  induction l as [|a l IH]; cbn [find map]; [discriminate|].
  intros Hfind Hsame Hp. destruct (same a) eqn:Ea.
  - now rewrite Hp.
  - destruct (p a) eqn:Epa.
    + injection Hfind as <-. congruence.
    + auto.
Qed.

Lemma find_exists {A} (p : A -> bool) (l : list A) (a : A) :
  In a l -> p a = true -> exists b, find p l = Some b.
Proof.
  intros Hin Hp. destruct (find p l) as [b|] eqn:E; [now exists b|].
  pose proof (find_none _ _ E a Hin). congruence.
Qed.

Lemma find_course_key (courseId t : Z) (d : DB) (c : Course) :
  find_course courseId t d = Some c ->
  In c (courses d) /\ course_key c = (courseId, t).
Proof.
  unfold find_course. intros H. apply find_some in H. destruct H as [Hin Hk].
  apply andb_true_iff in Hk. destruct Hk as [Hc Ht].
  apply Z.eqb_eq in Hc, Ht. split; [exact Hin|]. unfold course_key. congruence.
Qed.

Lemma find_course_none_key (courseId t : Z) (d : DB) :
  find_course courseId t d = None -> ~ In (courseId, t) (map course_key (courses d)).
Proof.
  unfold find_course. intros H Hin. apply in_map_iff in Hin.
  destruct Hin as [c [Hkey Hc]]. pose proof (find_none _ _ H c Hc) as Hno.
  unfold course_key in Hkey. injection Hkey as Hi Ht.
  cbv beta in Hno. now rewrite Hi, Ht, !Z.eqb_refl in Hno.
Qed.

Lemma updated_course_same (c : Course) (info : CourseInfo) :
  course_id (updated_course c info) = course_id c
  /\ course_key (updated_course c info) = course_key c.
Proof. split; reflexivity. Qed.

Section Courses.

Variable str_to_number : string -> option Z.
Variable active : Z -> bool.

Lemma getOrCreateCourse_answered (w : World) canvasCourseId courseId canvas info :
  faults w = [] ->
  joi_number_required str_to_number "canvasCourseId" canvasCourseId
    = inr courseId ->
  joi_course_info (Some info) = None ->
  fst (getOrCreateCourse str_to_number canvasCourseId (Some canvas) (Some info) w)
    = Callback None
        (Some (fst (course_tables courseId (canvas_id canvas) info (db w))))
  /\ db (snd (getOrCreateCourse str_to_number canvasCourseId (Some canvas)
                (Some info) w))
     = snd (course_tables courseId (canvas_id canvas) info (db w))
  /\ faults (snd (getOrCreateCourse str_to_number canvasCourseId (Some canvas)
                    (Some info) w)) = [].
Proof.
  intros Hfaults Hid Hinfo. unfold getOrCreateCourse. rewrite Hid, Hinfo. run.
  rewrite Hfaults. unfold course_tables, findOrCreate_course.
  destruct (find_course courseId (canvas_id canvas) (db w)) as [c|]; run;
    repeat split; reflexivity.
Qed.

(** After [getOrCreateCourse], the course it answers carries the key and
    the course info given, and is the course that [getCourse] answers for
    its id and that [getCoursePublic] shows for its key. *)
Theorem getOrCreateCourse_then_found (w : World) canvasCourseId courseId
    canvas info :
  faults w = [] ->
  joi_number_required str_to_number "canvasCourseId" canvasCourseId
    = inr courseId ->
  joi_course_info (Some info) = None ->
  let after :=
    snd (getOrCreateCourse str_to_number canvasCourseId (Some canvas)
           (Some info) w) in
  exists course,
    fst (getOrCreateCourse str_to_number canvasCourseId (Some canvas)
           (Some info) w)
      = Callback None (Some course)
    /\ course_key course = (courseId, canvas_id canvas)
    /\ (forall n, info_name info = Some n -> course_name course = Some n)
    /\ (forall u, info_privacydashboard_url info = Some u ->
                  privacydashboard_url course = Some u)
    /\ fst (getCourse (course_id course) after)
       = Callback None (Some (course, tenant_of (canvas_id canvas) (db w)))
    /\ fst (getCoursePublic str_to_number active canvasCourseId
              (JNum (canvas_id canvas)) after)
       = Callback None (Some (public_view active course)).
Proof.
  intros Hfaults Hid Hinfo. cbv zeta.
  destruct (getOrCreateCourse_answered w canvasCourseId courseId canvas info
              Hfaults Hid Hinfo) as [Hcb [Hdb Hf]].
  eexists. split; [exact Hcb|].
  unfold getCourse, getCoursePublic. rewrite Hid. cbn [joi_number_required to_number].
  run. rewrite Hf, Hdb. clear Hcb Hdb Hf.
  unfold course_tables.
  destruct (find_course courseId (canvas_id canvas) (db w)) as [c|] eqn:E.
  - destruct (find_course_key _ _ _ _ E) as [Hin Hkey].
    unfold update_course. cbn [fst snd courses tenants].
    assert (Hbyid : find (fun x => course_id x =? course_id (updated_course c info))
                      (map (fun x => if course_id x =? course_id c
                                     then updated_course c info else x)
                         (courses (db w)))
                    = Some (updated_course c info)).
    { destruct (find_exists (fun x => course_id x =? course_id c)
                  (courses (db w)) c Hin (Z.eqb_refl _)) as [b Hb].
      apply (find_replaced _ (fun x => course_id x =? course_id c) b).
      - exact Hb.
      - apply find_some in Hb. tauto.
      - apply Z.eqb_refl. }
    assert (Hbykey : find_course courseId (canvas_id canvas)
                       (mkDB (tenants (db w))
                          (map (fun x => if course_id x =? course_id c
                                         then updated_course c info else x)
                             (courses (db w)))
                          (users (db w)) (credentials (db w)) (opt_outs (db w))
                          (credential_users (db w)) (statement_months (db w)))
                     = Some (updated_course c info)).
    { unfold find_course. cbn [courses].
      apply (find_replaced _ (fun x => course_id x =? course_id c) c).
      - exact E.
      - apply Z.eqb_refl.
      - unfold course_key in Hkey. injection Hkey as Hc Ht. cbn.
        now rewrite Hc, Ht, !Z.eqb_refl. }
    rewrite Hbyid, Hbykey. run.
    assert (Ht : course_tenant_id c = canvas_id canvas)
      by (unfold course_key in Hkey; congruence).
    cbn [updated_course course_tenant_id]. rewrite Ht.
    repeat split; try reflexivity.
    + exact Hkey.
    + intros n Hn. cbn. now rewrite Hn.
    + intros u Hu. cbn. now rewrite Hu.
  - unfold findOrCreate_course. rewrite E. cbn [fst snd courses tenants course_id].
    set (c := mkCourse (next_id (map course_id (courses (db w)))) courseId
                (canvas_id canvas) (info_name info)
                (info_privacydashboard_url info)).
    assert (Hbyid : find (fun x => course_id x =? next_id (map course_id (courses (db w))))
                      (courses (db w) ++ [c]) = Some c).
    { apply find_app_none; [|apply Z.eqb_refl].
      destruct (find _ (courses (db w))) as [b|] eqn:Eb; [|reflexivity].
      apply find_some in Eb. destruct Eb as [Hb Hidb]. apply Z.eqb_eq in Hidb.
      pose proof (next_id_fresh _ _ (in_map course_id _ _ Hb)). lia. }
    assert (Hbykey : find_course courseId (canvas_id canvas)
                       (mkDB (tenants (db w)) (courses (db w) ++ [c])
                          (users (db w)) (credentials (db w)) (opt_outs (db w))
                          (credential_users (db w)) (statement_months (db w)))
                     = Some c).
    { unfold find_course. cbn [courses]. apply find_app_none; [exact E|].
      subst c. cbn. now rewrite !Z.eqb_refl. }
    rewrite Hbyid, Hbykey. run. cbn [course_tenant_id c].
    repeat split; try reflexivity; intros ? H; exact H.
Qed.

Lemma update_course_keys (c : Course) (info : CourseInfo) (l : list Course) :
  NoDup (map course_id l) -> In c l ->
  let l' := map (fun x => if course_id x =? course_id c
                          then updated_course c info else x) l in
  map course_id l' = map course_id l /\ map course_key l' = map course_key l.
Proof.
  intros Hnd Hin. cbv zeta. rewrite !map_map. split; apply map_ext_in; intros x Hx;
    destruct (Z.eqb_spec (course_id x) (course_id c)) as [Heq|]; try reflexivity.
  - now rewrite Heq.
  - assert (x = c) by (apply (NoDup_map_In_eq course_id l); auto).
    subst x. reflexivity.
Qed.

(** [getOrCreateCourse] keeps the courses table keyed: ids and natural keys
    stay without duplicates, no row is deleted, and at most one is added; for
    every argument and answer of the store. *)
Theorem getOrCreateCourse_keeps_keys (w : World) canvasCourseId canvas courseInfo :
  NoDup (map course_id (courses (db w))) ->
  NoDup (map course_key (courses (db w))) ->
  let after :=
    db (snd (getOrCreateCourse str_to_number canvasCourseId canvas courseInfo w)) in
  NoDup (map course_id (courses after))
  /\ NoDup (map course_key (courses after))
  /\ exists added,
       map course_id (courses after) = map course_id (courses (db w)) ++ added
       /\ (List.length added <= 1)%nat.
Proof.
  intros Hids Hkeys. cbv zeta.
  set (P := fun d : DB =>
              NoDup (map course_id (courses d))
              /\ NoDup (map course_key (courses d))
              /\ exists added,
                   map course_id (courses d)
                   = map course_id (courses (db w)) ++ added
                   /\ (List.length added <= 1)%nat).
  assert (Hsame : P (db w)).
  { repeat split; auto. exists []. rewrite app_nil_r. split; [reflexivity|cbn; lia]. }
  change (P (db (snd (getOrCreateCourse str_to_number canvasCourseId canvas
                        courseInfo w)))).
  unfold getOrCreateCourse.
  destruct (joi_number_required _ _ _) as [m|courseId]; [exact Hsame|].
  destruct canvas as [canvas|]; [|exact Hsame].
  destruct (joi_course_info courseInfo) as [m|]; [exact Hsame|].
  destruct courseInfo as [info|]; [|exact Hsame].
  run. unfold findOrCreate_course.
  destruct (find_course courseId (canvas_id canvas) (db w)) as [c|] eqn:E.
  - assert (Hupd : P (snd (update_course c info (db w)))).
    { destruct (find_course_key _ _ _ _ E) as [Hin _].
      destruct (update_course_keys c info _ Hids Hin) as [Hi Hk].
      unfold P, update_course. cbn [snd courses]. rewrite Hi, Hk.
      repeat split; auto. exists []. rewrite app_nil_r.
      split; [reflexivity | cbn; lia]. }
    destruct (faults w) as [|[m|] rest]; run; try exact Hsame;
      try exact Hupd;
      destruct rest as [|[m|] rest]; run; try exact Hsame; exact Hupd.
  - assert (Hnew : P (mkDB (tenants (db w))
                        (courses (db w)
                         ++ [mkCourse (next_id (map course_id (courses (db w))))
                               courseId (canvas_id canvas) (info_name info)
                               (info_privacydashboard_url info)])
                        (users (db w)) (credentials (db w)) (opt_outs (db w))
                        (credential_users (db w)) (statement_months (db w)))).
    { unfold P. cbn [courses]. split; [|split].
      - apply NoDup_map_snoc; [exact Hids|]. cbn [course_id]. intros Hin.
        pose proof (next_id_fresh _ _ Hin). lia.
      - apply NoDup_map_snoc; [exact Hkeys|]. now apply find_course_none_key.
      - rewrite map_app. eexists. split; [reflexivity | cbn; lia]. }
    destruct (faults w) as [|[m|] rest]; run; try exact Hsame; exact Hnew.
Qed.

(** The schema lets [courseInfo] be absent, and the code reads its keys:
    with a valid course id and a canvas but no course info, the call throws
    a TypeError before any store call, and the callback is not called. *)
Theorem getOrCreateCourse_without_info (w : World) canvasCourseId courseId canvas :
  joi_number_required str_to_number "canvasCourseId" canvasCourseId
    = inr courseId ->
  getOrCreateCourse str_to_number canvasCourseId (Some canvas) None w
  = (Throws (TypeError "Cannot read property 'name' of undefined"), w).
Proof.
  intros Hid. unfold getOrCreateCourse. rewrite Hid. reflexivity.
Qed.

(** When the course exists and its update fails, the caller gets the
    error of the update with code 500 and the row is as it was. *)
Theorem getOrCreateCourse_update_fails (w : World) canvasCourseId courseId
    canvas info existing m rest :
  faults w = None :: Some m :: rest ->
  joi_number_required str_to_number "canvasCourseId" canvasCourseId
    = inr courseId ->
  joi_course_info (Some info) = None ->
  find_course courseId (canvas_id canvas) (db w) = Some existing ->
  fst (getOrCreateCourse str_to_number canvasCourseId (Some canvas)
         (Some info) w)
    = Callback (Some (mkError 500 m)) None
  /\ db (snd (getOrCreateCourse str_to_number canvasCourseId (Some canvas)
                (Some info) w)) = db w
  /\ trace (snd (getOrCreateCourse str_to_number canvasCourseId (Some canvas)
                   (Some info) w))
     = trace w ++ [FindOrCreate Courses; Update Courses].
Proof.
  intros Hfaults Hid Hinfo Hfind. unfold getOrCreateCourse.
  rewrite Hid, Hinfo. run. rewrite Hfaults. unfold findOrCreate_course.
  rewrite Hfind. run. rewrite <- app_assoc. repeat split; reflexivity.
Qed.

End Courses.

Lemma getOrCreateCourse_then_found_witness :
  exists course,
    fst (getOrCreateCourse (fun _ => None) (JNum 7) (Some (mkCanvas 1))
           (Some (mkCourseInfo (Some "Logic") None)) empty_world)
      = Callback None (Some course)
    /\ course_key course = (7, canvas_id (mkCanvas 1))
    /\ (forall n, info_name (mkCourseInfo (Some "Logic") None) = Some n ->
                  course_name course = Some n)
    /\ (forall u, info_privacydashboard_url (mkCourseInfo (Some "Logic") None)
                  = Some u ->
                  privacydashboard_url course = Some u)
    /\ fst (getCourse (course_id course)
              (snd (getOrCreateCourse (fun _ => None) (JNum 7)
                      (Some (mkCanvas 1))
                      (Some (mkCourseInfo (Some "Logic") None)) empty_world)))
       = Callback None
           (Some (course, tenant_of (canvas_id (mkCanvas 1)) (db empty_world)))
    /\ fst (getCoursePublic (fun _ => None) (fun _ => true) (JNum 7)
              (JNum (canvas_id (mkCanvas 1)))
              (snd (getOrCreateCourse (fun _ => None) (JNum 7)
                      (Some (mkCanvas 1))
                      (Some (mkCourseInfo (Some "Logic") None)) empty_world)))
       = Callback None (Some (public_view (fun _ => true) course)).
Proof.
  apply (getOrCreateCourse_then_found (fun _ => None) (fun _ => true)
           empty_world (JNum 7) 7 (mkCanvas 1)
           (mkCourseInfo (Some "Logic") None)); reflexivity.
Defined.

Lemma getOrCreateCourse_keeps_keys_witness :
  NoDup (map course_id
           (courses (db (snd (getOrCreateCourse (fun _ => None) (JNum 7)
                                (Some (mkCanvas 1))
                                (Some (mkCourseInfo (Some "Logic") None))
                                empty_world)))))
  /\ NoDup (map course_key
              (courses (db (snd (getOrCreateCourse (fun _ => None) (JNum 7)
                                   (Some (mkCanvas 1))
                                   (Some (mkCourseInfo (Some "Logic") None))
                                   empty_world)))))
  /\ exists added,
       map course_id
         (courses (db (snd (getOrCreateCourse (fun _ => None) (JNum 7)
                              (Some (mkCanvas 1))
                              (Some (mkCourseInfo (Some "Logic") None))
                              empty_world))))
       = map course_id (courses (db empty_world)) ++ added
       /\ (List.length added <= 1)%nat.
Proof.
  apply (getOrCreateCourse_keeps_keys (fun _ => None) empty_world (JNum 7)
           (Some (mkCanvas 1)) (Some (mkCourseInfo (Some "Logic") None)));
    constructor.
Defined.

Lemma getOrCreateCourse_without_info_witness :
  getOrCreateCourse (fun _ => None) (JNum 7) (Some (mkCanvas 1)) None empty_world
  = (Throws (TypeError "Cannot read property 'name' of undefined"), empty_world).
Proof.
  apply (getOrCreateCourse_without_info (fun _ => None) empty_world (JNum 7) 7
           (mkCanvas 1)).
  reflexivity.
Defined.

Lemma getOrCreateCourse_update_fails_witness :
  fst (getOrCreateCourse (fun _ => None) (JNum 7) (Some (mkCanvas 1))
         (Some (mkCourseInfo (Some "Logic II") None)) logic_course_world)
    = Callback (Some (mkError 500 "connection lost")) None
  /\ db (snd (getOrCreateCourse (fun _ => None) (JNum 7) (Some (mkCanvas 1))
                (Some (mkCourseInfo (Some "Logic II") None))
                logic_course_world))
     = db logic_course_world
  /\ trace (snd (getOrCreateCourse (fun _ => None) (JNum 7) (Some (mkCanvas 1))
                   (Some (mkCourseInfo (Some "Logic II") None))
                   logic_course_world))
     = trace logic_course_world ++ [FindOrCreate Courses; Update Courses].
Proof.
  apply (getOrCreateCourse_update_fails (fun _ => None) logic_course_world
           (JNum 7) 7 (mkCanvas 1) (mkCourseInfo (Some "Logic II") None)
           (mkCourse 1 7 1 (Some "Logic") None) "connection lost" []);
    reflexivity.
Defined.

(** ** Validation, store failures and reads *)

Section Protocol.

Variable str_to_number : string -> option Z.
Variable active : Z -> bool.

(** A validation error is answered before anything else happens: whenever
    one of the validated operations answers code 400, the world is as it
    was (no store call, no log, no row changed). *)
Theorem validation_error_touches_nothing (w : World) :
  (forall externalId tenantId,
     error_code (fst (getUserByExternalId str_to_number externalId tenantId w))
       = Some 400 ->
     snd (getUserByExternalId str_to_number externalId tenantId w) = w)
  /\ (forall externalId tenantId name,
        error_code (fst (getOrCreateUser str_to_number externalId tenantId name w))
          = Some 400 ->
        snd (getOrCreateUser str_to_number externalId tenantId name w) = w)
  /\ (forall canvasCourseId canvas courseInfo,
        error_code (fst (getOrCreateCourse str_to_number canvasCourseId canvas
                           courseInfo w)) = Some 400 ->
        snd (getOrCreateCourse str_to_number canvasCourseId canvas courseInfo w)
          = w)
  /\ (forall canvasCourseId tenantId,
        error_code (fst (getCoursePublic str_to_number active canvasCourseId
                           tenantId w)) = Some 400 ->
        snd (getCoursePublic str_to_number active canvasCourseId tenantId w) = w)
  /\ (forall apiDomain ltiKey,
        error_code (fst (getTenant apiDomain ltiKey w)) = Some 400 ->
        snd (getTenant apiDomain ltiKey w) = w).
Proof.
  repeat split.
  - intros externalId tenantId. unfold getUserByExternalId.
    destruct (joi_string_required _ _); [reflexivity|].
    destruct (joi_number_required _ _ _); [reflexivity|].
    run. destruct (faults w) as [|[m|] rest]; run;
      try (cbn; discriminate);
      destruct (find_user _ _ _); cbn; discriminate.
  - intros externalId tenantId name. unfold getOrCreateUser.
    destruct (joi_string_required _ _); [reflexivity|].
    destruct (joi_number_required _ _ _); [reflexivity|].
    run. destruct (faults w) as [|[m|] rest]; run;
      try (cbn; discriminate);
      destruct (findOrCreate_user _ _ _ _) as [[u [|]] d]; cbn; discriminate.
  - intros canvasCourseId canvas courseInfo. unfold getOrCreateCourse.
    destruct (joi_number_required _ _ _); [reflexivity|].
    destruct canvas; [|reflexivity].
    destruct (joi_course_info courseInfo); [reflexivity|].
    destruct courseInfo; [|reflexivity].
    run. unfold findOrCreate_course.
    destruct (find_course _ _ _);
      destruct (faults w) as [|[m|] rest]; run; try (cbn; discriminate);
      destruct rest as [|[m|] rest]; run; cbn; discriminate.
  - intros canvasCourseId tenantId. unfold getCoursePublic.
    destruct (joi_number_required _ _ _); [reflexivity|].
    destruct (joi_number_required _ _ _); [reflexivity|].
    run. destruct (faults w) as [|[m|] rest]; run;
      try (cbn; discriminate);
      destruct (find_course _ _ _); cbn; discriminate.
  - intros apiDomain ltiKey. unfold getTenant.
    destruct (joi_string_required _ _); [reflexivity|].
    destruct (joi_string_alphanum_length _ _ _); [reflexivity|].
    run. destruct (faults w) as [|[m|] rest]; run;
      try (cbn; discriminate);
      destruct (find_tenant _ _ _); cbn; discriminate.
Qed.

(** A failed store call is reported once and as it is: when the next
    answer of the store is a failure with message [m], each of these
    operations either makes no store call (the arguments or the context are
    refused before), or makes exactly one, answers [{code: 500, msg: m}] and
    leaves the tables as they were. *)
Theorem store_failure_reported (w : World) (m : string) :
  hd None (faults w) = Some m ->
  let reported {A} (r : outcome A * World) (op : store_op) :=
    trace (snd r) = trace w
    \/ (fst r = Callback (Some (mkError 500 m)) None
        /\ trace (snd r) = trace w ++ [op]
        /\ db (snd r) = db w) in
  (forall externalId tenantId,
     reported (getUserByExternalId str_to_number externalId tenantId w)
       (FindOne Users))
  /\ (forall externalId tenantId name,
        reported (getOrCreateUser str_to_number externalId tenantId name w)
          (FindOrCreate Users))
  /\ (forall canvasCourseId canvas courseInfo,
        reported (getOrCreateCourse str_to_number canvasCourseId canvas
                    courseInfo w) (FindOrCreate Courses))
  /\ (forall id, reported (getCourse id w) (FindByPk Courses))
  /\ (forall canvasCourseId tenantId,
        reported (getCoursePublic str_to_number active canvasCourseId tenantId w)
          (FindOne Courses))
  /\ (forall apiDomain ltiKey,
        reported (getTenant apiDomain ltiKey w) (FindOne Tenants))
  /\ reported (getTenants w) (FindAll Tenants)
  /\ (forall ctx, reported (getDataUses ctx w) (FindAll Credentials))
  /\ (forall ctx dataUse,
        reported (getOrCreateOptOutDetails ctx dataUse w) (FindOrCreate Opt_outs))
  /\ (forall fuel now ctx,
        trace (snd (getTotalActivities fuel now ctx w)) = trace w
        \/ (fst (getTotalActivities fuel now ctx w)
              = Some (Callback (Some (mkError 500 m)) None)
            /\ trace (snd (getTotalActivities fuel now ctx w))
               = trace w ++ [Query Statements]
            /\ db (snd (getTotalActivities fuel now ctx w)) = db w)).
Proof.
  intros Hfail. cbv zeta.
  destruct (faults w) as [|[m'|] rest] eqn:Hfaults; try discriminate.
  cbn in Hfail. injection Hfail as ->.
  repeat split.
  - intros externalId tenantId. unfold getUserByExternalId.
    destruct (joi_string_required _ _); [now left|].
    destruct (joi_number_required _ _ _); [now left|].
    right. run. rewrite Hfaults. repeat split; reflexivity.
  - intros externalId tenantId name. unfold getOrCreateUser.
    destruct (joi_string_required _ _); [now left|].
    destruct (joi_number_required _ _ _); [now left|].
    right. run. rewrite Hfaults. repeat split; reflexivity.
  - intros canvasCourseId canvas courseInfo. unfold getOrCreateCourse.
    destruct (joi_number_required _ _ _); [now left|].
    destruct canvas; [|now left].
    destruct (joi_course_info courseInfo); [now left|].
    destruct courseInfo; [|now left].
    right. run. rewrite Hfaults. repeat split; reflexivity.
  - intros id. right. unfold getCourse. run. rewrite Hfaults.
    repeat split; reflexivity.
  - intros canvasCourseId tenantId. unfold getCoursePublic.
    destruct (joi_number_required _ _ _); [now left|].
    destruct (joi_number_required _ _ _); [now left|].
    right. run. rewrite Hfaults. repeat split; reflexivity.
  - intros apiDomain ltiKey. unfold getTenant.
    destruct (joi_string_required _ _); [now left|].
    destruct (joi_string_alphanum_length _ _ _); [now left|].
    right. run. rewrite Hfaults. repeat split; reflexivity.
  - right. unfold getTenants. run. rewrite Hfaults. repeat split; reflexivity.
  - intros ctx. unfold getDataUses.
    destruct ctx as [[[[[t|]]|] u]|]; run; try (now left).
    destruct (t =? 0); run; [now left|].
    right. rewrite Hfaults. repeat split; reflexivity.
  - intros ctx dataUse. unfold getOrCreateOptOutDetails.
    destruct ctx as [[a [u|]]|]; run; try (now left).
    right. rewrite Hfaults. repeat split; reflexivity.
  - intros fuel now ctx. unfold getTotalActivities.
    destruct ctx as [[a [u|]]|]; run; try (now left).
    right. rewrite Hfaults. repeat split; reflexivity.
Qed.

(** The operations that read never write: the tables after the call are
    the tables before it, for every argument and answer of the store. *)
Theorem readers_do_not_write (w : World) :
  (forall externalId tenantId,
     db (snd (getUserByExternalId str_to_number externalId tenantId w)) = db w)
  /\ (forall id, db (snd (getCourse id w)) = db w)
  /\ (forall canvasCourseId tenantId,
        db (snd (getCoursePublic str_to_number active canvasCourseId tenantId w))
        = db w)
  /\ (forall apiDomain ltiKey, db (snd (getTenant apiDomain ltiKey w)) = db w)
  /\ db (snd (getTenants w)) = db w
  /\ (forall ctx, db (snd (getDataUses ctx w)) = db w)
  /\ (forall fuel now ctx, db (snd (getTotalActivities fuel now ctx w)) = db w).
Proof.
  repeat split.
  - intros externalId tenantId. unfold getUserByExternalId.
    destruct (joi_string_required _ _); [reflexivity|].
    destruct (joi_number_required _ _ _); [reflexivity|].
    run. destruct (faults w) as [|[m|] rest]; run; try reflexivity;
      destruct (find_user _ _ _); reflexivity.
  - intros id. unfold getCourse. run.
    destruct (faults w) as [|[m|] rest]; run; try reflexivity;
      destruct (find _ _); reflexivity.
  - intros canvasCourseId tenantId. unfold getCoursePublic.
    destruct (joi_number_required _ _ _); [reflexivity|].
    destruct (joi_number_required _ _ _); [reflexivity|].
    run. destruct (faults w) as [|[m|] rest]; run; try reflexivity;
      destruct (find_course _ _ _); reflexivity.
  - intros apiDomain ltiKey. unfold getTenant.
    destruct (joi_string_required _ _); [reflexivity|].
    destruct (joi_string_alphanum_length _ _ _); [reflexivity|].
    run. destruct (faults w) as [|[m|] rest]; run; try reflexivity;
      destruct (find_tenant _ _ _); reflexivity.
  - unfold getTenants. run.
    destruct (faults w) as [|[m|] rest]; reflexivity.
  - intros ctx. unfold getDataUses.
    destruct ctx as [[[[[t|]]|] u]|]; run; try reflexivity.
    destruct (t =? 0); run; [reflexivity|].
    destruct (faults w) as [|[m|] rest]; reflexivity.
  - intros fuel now ctx. unfold getTotalActivities.
    destruct ctx as [[a [u|]]|]; run; try reflexivity.
    destruct (faults w) as [|[m|] rest]; reflexivity.
Qed.

(** Found, or 404: with valid arguments and a store that answers,
    [getTenant], [getCourse] and [getCoursePublic] answer a row that is in
    the table and has the key asked for, or answer code 404 and no row of the
    table has the key. *)
Theorem lookup_found_or_404 (w : World) :
  hd None (faults w) = None ->
  (forall domain key,
     domain <> "" -> lti_key_ok (JStr key) = true ->
     (exists tenant,
        fst (getTenant (JStr domain) (JStr key) w) = Callback None (Some tenant)
        /\ In tenant (tenants (db w))
        /\ tenant_api_domain tenant = domain /\ lti_key tenant = key)
     \/ (error_code (fst (getTenant (JStr domain) (JStr key) w)) = Some 404
         /\ forall tenant, In tenant (tenants (db w)) ->
              ~ (tenant_api_domain tenant = domain /\ lti_key tenant = key)))
  /\ (forall id,
        (exists course,
           fst (getCourse id w)
             = Callback None
                 (Some (course, tenant_of (course_tenant_id course) (db w)))
           /\ In course (courses (db w)) /\ course_id course = id)
        \/ (error_code (fst (getCourse id w)) = Some 404
            /\ forall course, In course (courses (db w)) -> course_id course <> id))
  /\ (forall canvasCourseId courseId tenantId t,
        joi_number_required str_to_number "canvasCourseId" canvasCourseId
          = inr courseId ->
        joi_number_required str_to_number "tenantId" tenantId = inr t ->
        (exists course,
           fst (getCoursePublic str_to_number active canvasCourseId tenantId w)
             = Callback None (Some (public_view active course))
           /\ In course (courses (db w)) /\ course_key course = (courseId, t))
        \/ (error_code (fst (getCoursePublic str_to_number active
                               canvasCourseId tenantId w)) = Some 404
            /\ forall course, In course (courses (db w)) ->
                 course_key course <> (courseId, t))).
Proof.
  intros Hok. repeat split.
  - intros domain key Hdomain Hkey. unfold getTenant.
    destruct domain as [|c domain]; [contradiction|].
    cbn [joi_string_required].
    assert (Hjoi : joi_string_alphanum_length "ltiKey" 32 (JStr key)
                   = inr (Some key)).
    { unfold lti_key_ok in Hkey. apply andb_true_iff in Hkey.
      destruct Hkey as [Hlen Hal]. unfold joi_string_alphanum_length.
      destruct key as [|k key]; [discriminate|].
      now rewrite Hal, Hlen. }
    rewrite Hjoi. run. unfold find_tenant.
    destruct (faults w) as [|[m|] rest]; try discriminate; run;
      (destruct (find _ (tenants (db w))) as [tenant|] eqn:E; cbn [fst snd];
       [ left; exists tenant; apply find_some in E; destruct E as [Hin Hm];
         apply andb_true_iff in Hm; destruct Hm as [Hd Hk];
         apply String.eqb_eq in Hd, Hk; auto
       | right; split; [reflexivity|];
         intros tenant Hin [Hd Hk];
         pose proof (find_none _ _ E tenant Hin) as Hno; cbv beta in Hno;
         rewrite Hd, Hk, !String.eqb_refl in Hno; discriminate ]).
  - intros id. unfold getCourse. run.
    destruct (faults w) as [|[m|] rest]; try discriminate; run;
      (destruct (find _ (courses (db w))) as [course|] eqn:E; cbn [fst snd];
       [ left; exists course; apply find_some in E; destruct E as [Hin Hm];
         apply Z.eqb_eq in Hm; auto
       | right; split; [reflexivity|];
         intros course Hin Hid;
         pose proof (find_none _ _ E course Hin) as Hno; cbv beta in Hno;
         rewrite Hid, Z.eqb_refl in Hno; discriminate ]).
  - intros canvasCourseId courseId tenantId t Hc Ht. unfold getCoursePublic.
    rewrite Hc, Ht. run.
    destruct (faults w) as [|[m|] rest]; try discriminate; run;
      (destruct (find_course courseId t (db w)) as [course|] eqn:E;
       cbn [fst snd];
       [ left; exists course; destruct (find_course_key _ _ _ _ E); auto
       | right; split; [reflexivity|];
         intros course Hin Hkey;
         apply (find_course_none_key _ _ _ E);
         rewrite <- Hkey; now apply in_map ]).
Qed.

(** The credentials that [getDataUses] answers, the context carrying a
    tenant id and the store answering: one record per credential that has no
    tenant or that shares data in the tenant of the caller, in the order of
    the table, and no record for any other credential. *)
Theorem getDataUses_selects (auth : Auth) (user : option CtxUser)
    (tenantId : Z) (w : World) :
  auth_tenant_id auth = Some tenantId ->
  tenantId <> 0 ->
  hd None (faults w) = None ->
  NoDup (map credential_id (credentials (db w))) ->
  exists dataUses,
    fst (getDataUses (Some (mkCtx (Some auth) user)) w)
      = Callback None (Some dataUses)
    /\ map id dataUses
       = map credential_id
           (filter (data_use_where tenantId) (credentials (db w)))
    /\ NoDup (map id dataUses)
    /\ forall c,
         In c (credentials (db w)) ->
         (In (credential_id c) (map id dataUses)
          <-> credential_tenant_id c = None
              \/ (credential_tenant_id c = Some tenantId /\ datashare c = true)).
Proof.
  intros Hauth Hnz Hok Hkey.
  eexists. split; [apply getDataUses_answer; eassumption|].
  rewrite data_use_ids. split; [reflexivity|]. split.
  - apply NoDup_map_filter. exact Hkey.
  - intros c Hc. rewrite in_map_iff. split.
    + intros [c' [Hid Hc']]. apply filter_In in Hc'. destruct Hc' as [Hin Hw].
      assert (c' = c) by (apply (NoDup_map_In_eq credential_id _ Hkey); auto).
      subst c'. unfold data_use_where in Hw.
      destruct (credential_tenant_id c) as [t|]; [|now left].
      apply andb_true_iff in Hw. destruct Hw as [Ht Hs].
      apply Z.eqb_eq in Ht. right. split; [congruence | exact Hs].
    + intros H. exists c. split; [reflexivity|]. apply filter_In.
      split; [exact Hc|]. unfold data_use_where.
      destruct H as [-> | [-> ->]]; [reflexivity|].
      now rewrite Z.eqb_refl.
Qed.

(** With a current user, the [share] flag of a record is [false] exactly
    when the users associated with the credential hold the current user in
    the tenant of the caller, and [true] otherwise. *)
Theorem getDataUses_share_flag (auth : Auth) (user : CtxUser)
    (tenantId : Z) (w : World) :
  auth_tenant_id auth = Some tenantId ->
  tenantId <> 0 ->
  hd None (faults w) = None ->
  exists dataUses,
    fst (getDataUses (Some (mkCtx (Some auth) (Some user))) w)
      = Callback None (Some dataUses)
    /\ forall dataUse,
         In dataUse dataUses ->
         exists c,
           In c (credentials (db w))
           /\ id dataUse = credential_id c
           /\ (share dataUse = false
               <-> exists x,
                     In x (credential_users (db w) (credential_id c))
                     /\ user_id x = ctx_user_id user
                     /\ user_tenant_id x = tenantId).
Proof.
  intros Hauth Hnz Hok.
  eexists. split; [apply getDataUses_answer; eassumption|].
  intros dataUse Hin. apply in_map_iff in Hin. destruct Hin as [row [<- Hrow]].
  unfold findAll_credentials in Hrow. apply in_map_iff in Hrow.
  destruct Hrow as [c [<- Hc]]. apply filter_In in Hc. destruct Hc as [Hc _].
  exists c. split; [exact Hc|]. split; [reflexivity|].
  unfold data_use_of, included_users. cbn [share row_users].
  destruct (filter _ (credential_users (db w) (credential_id c))) as [|x l] eqn:E.
  - cbn. split; [discriminate|]. intros [x [Hx [Hu Ht]]].
    assert (In x []) as [].
    rewrite <- E. apply filter_In. split; [exact Hx|].
    now rewrite Hu, Ht, !Z.eqb_refl.
  - cbn. split; [|reflexivity]. intros _. exists x.
    assert (Hx : In x (x :: l)) by now left.
    rewrite <- E in Hx. apply filter_In in Hx. destruct Hx as [Hx Hm].
    apply andb_true_iff in Hm. destruct Hm as [Hu Ht].
    apply Z.eqb_eq in Hu, Ht. auto.
Qed.

End Protocol.

Lemma store_failure_reported_witness :
  fst (getTenants (mkWorld empty_db [Some "connection lost"] [] []))
    = Callback (Some (mkError 500 "connection lost")) None.
Proof.
  pose proof (store_failure_reported (fun _ => None) (fun _ => true)
                (mkWorld empty_db [Some "connection lost"] [] [])
                "connection lost" eq_refl) as H.
  cbv zeta in H.
  destruct H as [_ [_ [_ [_ [_ [_ [[H | [H _]] _]]]]]]].
  - discriminate H.
  - exact H.
Defined.

Lemma lookup_found_or_404_witness :
  (exists course,
     fst (getCourse 1 logic_course_world)
       = Callback None
           (Some (course, tenant_of (course_tenant_id course)
                            (db logic_course_world)))
     /\ In course (courses (db logic_course_world)) /\ course_id course = 1)
  \/ (error_code (fst (getCourse 1 logic_course_world)) = Some 404
      /\ forall course, In course (courses (db logic_course_world)) ->
           course_id course <> 1).
Proof.
  exact (proj1 (proj2 (lookup_found_or_404 (fun _ => None) (fun _ => true)
                         logic_course_world eq_refl)) 1).
Defined.

Lemma getDataUses_selects_witness :
  exists dataUses,
    fst (getDataUses (Some (mkCtx (Some (mkAuth (Some 1))) None)) example_world)
      = Callback None (Some dataUses)
    /\ map id dataUses
       = map credential_id
           (filter (data_use_where 1) (credentials (db example_world)))
    /\ NoDup (map id dataUses)
    /\ forall c,
         In c (credentials (db example_world)) ->
         (In (credential_id c) (map id dataUses)
          <-> credential_tenant_id c = None
              \/ (credential_tenant_id c = Some 1 /\ datashare c = true)).
Proof.
  apply (getDataUses_selects (mkAuth (Some 1)) None 1 example_world).
  - reflexivity.
  - lia.
  - reflexivity.
  - cbn. repeat constructor; cbn; intuition lia.
Defined.

Lemma getDataUses_share_flag_witness :
  exists dataUses,
    fst (getDataUses (Some (mkCtx (Some (mkAuth (Some 1)))
                              (Some (mkCtxUser 4 1)))) linked_world)
      = Callback None (Some dataUses)
    /\ forall dataUse,
         In dataUse dataUses ->
         exists c,
           In c (credentials (db linked_world))
           /\ id dataUse = credential_id c
           /\ (share dataUse = false
               <-> exists x,
                     In x (credential_users (db linked_world) (credential_id c))
                     /\ user_id x = ctx_user_id (mkCtxUser 4 1)
                     /\ user_tenant_id x = 1).
Proof.
  apply (getDataUses_share_flag (mkAuth (Some 1)) (mkCtxUser 4 1) 1 linked_world).
  - reflexivity.
  - lia.
  - reflexivity.
Defined.
